(** * Billing handlers of cloud.padlock.io (handler.go), embedded in Rocq

    The file embeds the three request handlers that touch billing state,
    [Subscribe.Handle], [Unsubscribe.Handle] and [StripeHook.Handle],
    together with [wrapCardError], and proves what they do to the
    account objects, to the store and to the billing provider.

    Go pointers are locations of a heap of objects, a Go [error] is an
    [option error] ([None] is [nil]), a nil dereference is the outcome
    [Panic], and every call that leaves handler.go (helpers of the
    package declared in other files, the stripe client, the storage, the
    JSON decoder) is a field of the environment [Env]. *)

From stdpp Require Import base option strings gmap list.

Local Open Scope string_scope.

(** ** Errors *)

(** [stripe.ErrorType] is a string type; [stripe.ErrorTypeCard] is one of
    its constants. *)
Definition ErrorTypeCard : string := "card_error".

(** The fields of [stripe.Error] the handlers look at. *)
Record stripe_Error := {
  err_Type : string;
  err_Code : string;
  err_Msg  : string;
}.

(** The dynamic types a non-nil [error] value has in handler.go. *)
Inductive error :=
| InvalidAuthToken                     (* &pc.InvalidAuthToken{} *)
| BadRequest (msg : string)            (* &pc.BadRequest{msg} *)
| stripe_Err (e : stripe_Error)        (* *stripe.Error, from the client *)
| StripeError (e : stripe_Error)       (* &StripeError{stripeErr} *)
| other_error (msg : string).          (* any other error value *)

Global Instance stripe_Error_eq_dec : EqDecision stripe_Error.
Proof. solve_decision. Defined.
Global Instance error_eq_dec : EqDecision error.
Proof. solve_decision. Defined.

(** ** Objects behind pointers *)

Definition loc := positive.

Record Plan := { plan_ID : string }.

(** [stripe.Sub]; [Plan] is a pointer field. *)
Record Sub := {
  sub_ID       : string;
  sub_Plan     : option Plan;
  sub_Status   : string;
  sub_TrialEnd : Z;
}.

Record Card := { card_Brand : string; card_LastFour : string }.

(** [stripe.Customer]; [Subs.Values] is a slice of [*Sub]. *)
Record Customer := {
  cus_ID      : string;
  cus_Email   : string;
  cus_Sources : list Card;
  cus_Subs    : list loc;
}.

(** The [Account] of the package: handler.go reads [Email] and
    [TrackingID] and reads and assigns [Customer], a [*stripe.Customer]. *)
Record Account := {
  acc_Email      : string;
  acc_TrackingID : string;
  acc_Customer   : option loc;
}.

Global Instance Sub_inhabited : Inhabited Sub :=
  populate {| sub_ID := ""; sub_Plan := None; sub_Status := ""; sub_TrialEnd := 0 |}.
Global Instance Customer_inhabited : Inhabited Customer :=
  populate {| cus_ID := ""; cus_Email := ""; cus_Sources := []; cus_Subs := [] |}.
Global Instance Account_inhabited : Inhabited Account :=
  populate {| acc_Email := ""; acc_TrackingID := ""; acc_Customer := None |}.

(** The memory the handlers reach through pointers. *)
Record Heap := {
  h_acc : gmap loc Account;
  h_cus : gmap loc Customer;
  h_sub : gmap loc Sub;
}.

Definition read_acc (h : Heap) (l : loc) : Account := h_acc h !!! l.
Definition read_cus (h : Heap) (l : loc) : Customer := h_cus h !!! l.
Definition read_sub (h : Heap) (l : loc) : Sub := h_sub h !!! l.

Definition write_acc (h : Heap) (l : loc) (v : Account) : Heap :=
  {| h_acc := <[l := v]> (h_acc h); h_cus := h_cus h; h_sub := h_sub h |}.
Definition write_sub (h : Heap) (l : loc) (v : Sub) : Heap :=
  {| h_acc := h_acc h; h_cus := h_cus h; h_sub := <[l := v]> (h_sub h) |}.

(** [acc.Customer = c] *)
Definition set_Customer (a : Account) (c : loc) : Account :=
  {| acc_Email := acc_Email a; acc_TrackingID := acc_TrackingID a;
     acc_Customer := Some c |}.

(** ** Requests, webhook events, tracking events *)

Record pc_Account := { pc_Email : string }.

(** [*pc.AuthToken]; [a.Account()] reads the token's account, which a
    token handed to a handler always has. *)
Record AuthToken := { tok_account : pc_Account }.

Record Request := {
  req_PostForm : gmap string string;
  req_Query    : gmap string string;
  req_Body     : error + string;       (* what ioutil.ReadAll(r.Body) gives *)
}.

Definition PostFormValue (r : Request) (key : string) : string :=
  default "" (req_PostForm r !! key).
Definition Query_Get (r : Request) (key : string) : string :=
  default "" (req_Query r !! key).

Record EventData := {
  data_Raw : string;
  data_Obj : gmap string string;
}.

(** [stripe.Event]; [Data] is a pointer field. *)
Record StripeEvent := {
  ev_Type : string;
  ev_Data : option EventData;
}.

Record SubParams := { TrialEndNow : bool }.

Record TrackingEvent := {
  te_TrackingID : string;
  te_Name       : string;
  te_Properties : list (string * string);
}.

Definition StatusFound : Z := 302.

(** ** What a handler does to the outside, in order *)

(** One entry per call that leaves the handler, with what it returned,
    and one per response, log line and tracking event. *)
Inductive Event :=
| CallAccountFromEmail (email : string) (create : bool) (res : error + loc)
| CallSetPaymentSource (acc : loc) (token : string) (res : option error)
| CallEnsureSubscription (acc : loc) (res : error + loc)
| CallSubUpdate (id : string) (params : SubParams) (res : error + loc)
| CallSubCancel (id : string) (res : error + loc)
| CallCustomerGet (id : string) (res : error + loc)
| CallStoragePut (acc : loc) (res : option error)
| HttpRedirect (url : string) (code : Z)
| LogPrintf (line : string)
| GoTrack (ev : TrackingEvent).

Definition err_of {A} (res : error + A) : option error :=
  match res with inl e => Some e | inr _ => None end.


Definition is_provider_call (e : Event) : bool :=
  match e with
  | CallSetPaymentSource _ _ _ | CallEnsureSubscription _ _
  | CallSubUpdate _ _ _ | CallSubCancel _ _ | CallCustomerGet _ _ => true
  | _ => false
  end.

Definition is_store_put (e : Event) : bool :=
  match e with CallStoragePut _ _ => true | _ => false end.

Definition is_response (e : Event) : bool :=
  match e with HttpRedirect _ _ | GoTrack _ => true | _ => false end.

(** ** The environment of handler.go *)

Record State (Sto Prov : Type) := mkState {
  heap  : Heap;
  store : Sto;       (* what h.Storage holds *)
  prov  : Prov;      (* the billing provider's side *)
}.
Arguments mkState {Sto Prov}.
Arguments heap {Sto Prov}.
Arguments store {Sto Prov}.
Arguments prov {Sto Prov}.

(** Everything handler.go calls and does not define. A call that returns
    [(value, error)] is a sum: by Go's convention the value is used only
    when the error is nil. Each field has the access its Go signature
    gives it: a method of [*Account] and the stripe client see memory and
    the provider, [h.AccountFromEmail] and [EnsureSubscription(acc,
    h.Storage)] also see the storage, [h.Storage.Put] reads memory and
    writes the storage. *)
Record Env := {
  Sto  : Type;
  Prov : Type;
  AccountFromEmail : string -> bool -> State Sto Prov -> (error + loc) * State Sto Prov;
  HasActiveSubscription : Heap -> loc -> bool;
  Subscription : Heap -> loc -> option loc;
  SetPaymentSource : loc -> string -> Heap * Prov -> option error * (Heap * Prov);
  EnsureSubscription : loc -> State Sto Prov -> (error + loc) * State Sto Prov;
  sub_Update : string -> SubParams -> Heap * Prov -> (error + loc) * (Heap * Prov);
  sub_Cancel : string -> Heap * Prov -> (error + loc) * (Heap * Prov);
  customer_Get : string -> Heap * Prov -> (error + loc) * (Heap * Prov);
  Storage_Put : loc -> Heap -> Sto -> option error * Sto;
  Unmarshal_Event : string -> error + StripeEvent;
  Unmarshal_Customer : string -> Heap -> (error + loc) * Heap;
  FormatRequest : Request -> string;
  sourceFromRef : string -> string;
}.

(** ** The handler monad: state, trace, panics *)

Inductive Outcome (A : Type) :=
| Done (a : A)
| Panic.                               (* nil pointer dereference *)
Arguments Done {A}.
Arguments Panic {A}.

Abbreviation St E := (State (Sto E) (Prov E)).

Section Handlers.
Context (E : Env).

Record World := mkWorld {
  state : St E;
  trace : list Event;
}.

Definition M (A : Type) : Type := World -> Outcome A * World.

Definition ret {A} (a : A) : M A := fun w => (Done a, w).

Definition bind {A B} (m : M A) (k : A -> M B) : M B :=
  fun w => match m w with
           | (Done a, w') => k a w'
           | (Panic, w') => (Panic, w')
           end.

Definition panic {A} : M A := fun w => (Panic, w).

(** One invocation of a handler: it starts with an empty trace. *)
Definition run {A} (m : M A) (s : St E) : Outcome A * World := m (mkWorld s []).

Definition emit (e : Event) : M unit :=
  fun w => (Done tt, mkWorld (state w) (trace w ++ [e])).

Definition get_heap : M Heap := fun w => (Done (heap (state w)), w).

Definition put_heap (h : Heap) : M unit :=
  fun w => (Done tt, mkWorld (mkState h (store (state w)) (prov (state w))) (trace w)).

(** a call that may touch memory, the storage and the provider *)
Definition call_server {R} (f : St E -> R * St E) : M R :=
  fun w => let out := f (state w) in
           (Done (fst out), mkWorld (snd out) (trace w)).

(** a call that may touch memory and the provider *)
Definition call_provider {R} (f : Heap * Prov E -> R * (Heap * Prov E)) : M R :=
  fun w => let out := f (heap (state w), prov (state w)) in
           (Done (fst out),
            mkWorld (mkState (fst (snd out)) (store (state w)) (snd (snd out))) (trace w)).

(** a call that reads memory and may write the storage *)
Definition call_storage {R} (f : Heap -> Sto E -> R * Sto E) : M R :=
  fun w => let out := f (heap (state w)) (store (state w)) in
           (Done (fst out),
            mkWorld (mkState (heap (state w)) (snd out) (prov (state w))) (trace w)).

(** a call that may allocate *)
Definition call_alloc {R} (f : Heap -> R * Heap) : M R :=
  fun w => let out := f (heap (state w)) in
           (Done (fst out),
            mkWorld (mkState (snd out) (store (state w)) (prov (state w))) (trace w)).

Notation "'let*' x ':=' m 'in' k" := (bind m (fun x => k))
  (at level 10, x name, m at level 100, k at level 200, only parsing).
Notation "m ';;;' k" := (bind m (fun _ => k))
  (at level 100, k at level 200, right associativity, only parsing).

(** *** The calls of handler.go, each recorded in the trace *)

(** [h.AccountFromEmail(email, create)] *)
Definition h_AccountFromEmail (email : string) (create : bool) : M (error + loc) :=
  let* res := call_server (AccountFromEmail E email create) in
  emit (CallAccountFromEmail email create res) ;;; ret res.

(** [acc.HasActiveSubscription()] *)
Definition acc_HasActiveSubscription (acc : loc) : M bool :=
  let* h := get_heap in ret (HasActiveSubscription E h acc).

(** [acc.Subscription()] *)
Definition acc_Subscription (acc : loc) : M (option loc) :=
  let* h := get_heap in ret (Subscription E h acc).

(** [acc.SetPaymentSource(token)] *)
Definition acc_SetPaymentSource (acc : loc) (token : string) : M (option error) :=
  let* res := call_provider (SetPaymentSource E acc token) in
  emit (CallSetPaymentSource acc token res) ;;; ret res.

(** [EnsureSubscription(acc, h.Storage)] *)
Definition do_EnsureSubscription (acc : loc) : M (error + loc) :=
  let* res := call_server (EnsureSubscription E acc) in
  emit (CallEnsureSubscription acc res) ;;; ret res.

(** [sub.Update(id, params)] *)
Definition do_sub_Update (id : string) (params : SubParams) : M (error + loc) :=
  let* res := call_provider (sub_Update E id params) in
  emit (CallSubUpdate id params res) ;;; ret res.

(** [sub.Cancel(id, nil)] *)
Definition do_sub_Cancel (id : string) : M (error + loc) :=
  let* res := call_provider (sub_Cancel E id) in
  emit (CallSubCancel id res) ;;; ret res.

(** [customer.Get(id, nil)] *)
Definition do_customer_Get (id : string) : M (error + loc) :=
  let* res := call_provider (customer_Get E id) in
  emit (CallCustomerGet id res) ;;; ret res.

(** [h.Storage.Put(acc)] *)
Definition h_Storage_Put (acc : loc) : M (option error) :=
  let* res := call_storage (Storage_Put E acc) in
  emit (CallStoragePut acc res) ;;; ret res.

(** [*s = *s_] *)
Definition assign_sub (s s_ : loc) : M unit :=
  let* h := get_heap in put_heap (write_sub h s (read_sub h s_)).

(** [a.Account()]: the method reads through its receiver. *)
Definition a_Account (a : option AuthToken) : M pc_Account :=
  match a with
  | None => panic
  | Some t => ret (tok_account t)
  end.

(** [event.Data], dereferenced *)
Definition event_Data (event : StripeEvent) : M EventData :=
  match ev_Data event with
  | None => panic
  | Some d => ret d
  end.

(** [event.GetObjValue(key)] *)
Definition GetObjValue (event : StripeEvent) (key : string) : M string :=
  let* d := event_Data event in ret (default "" (data_Obj d !! key)).

Definition nl : string := String (Ascii.ascii_of_nat 10) "".

(** ** handler.go *)

Definition wrapCardError (err : error) : error :=
  match err with
  | stripe_Err stripeErr =>
      if decide (err_Type stripeErr = ErrorTypeCard)
      then StripeError stripeErr
      else err
  | _ => err
  end.

Definition Subscribe_Handle (r : Request) (a : option AuthToken) : M (option error) :=
  match a with
  | None => ret (Some InvalidAuthToken)
  | Some _ =>
    let token := PostFormValue r "stripeToken" in
    if decide (token = "") then ret (Some (BadRequest "No stripe token provided")) else
    let* account := a_Account a in
    let* res := h_AccountFromEmail (pc_Email account) true in
    match res with
    | inl err => ret (Some err)
    | inr acc =>
      let* active := acc_HasActiveSubscription acc in
      let newSubscription := negb active in
      let* err := acc_SetPaymentSource acc token in
      match err with
      | Some err => ret (Some (wrapCardError err))
      | None =>
        let* res := do_EnsureSubscription acc in
        match res with
        | inl err => ret (Some err)
        | inr s =>
          let* h := get_heap in
          let* res := do_sub_Update (sub_ID (read_sub h s)) {| TrialEndNow := true |} in
          match res with
          | inl err => ret (Some (wrapCardError err))
          | inr s_ =>
            assign_sub s s_ ;;;
            let* err := h_Storage_Put acc in
            match err with
            | Some err => ret (Some err)
            | None =>
              let eventName :=
                if newSubscription then "Buy Subscription" else "Update Payment Method" in
              let action :=
                if newSubscription then "subscribed" else "payment-updated" in
              emit (HttpRedirect ("/dashboard/?action=" +:+ action) StatusFound) ;;;
              let* h := get_heap in
              emit (LogPrintf (FormatRequest E r +:+ " - subcribe - "
                                +:+ acc_Email (read_acc h acc) +:+ nl)) ;;;
              match sub_Plan (read_sub h s) with
              | None => panic
              | Some plan =>
                emit (GoTrack {| te_TrackingID := "";
                                 te_Name := eventName;
                                 te_Properties :=
                                   [("Plan", plan_ID plan);
                                    ("Source", sourceFromRef E (Query_Get r "ref"))] |}) ;;;
                ret None
              end
            end
          end
        end
      end
    end
  end.

Definition Unsubscribe_Handle (r : Request) (a : option AuthToken) : M (option error) :=
  let* account := a_Account a in
  let* res := h_AccountFromEmail (pc_Email account) true in
  match res with
  | inl err => ret (Some err)
  | inr acc =>
    let* s := acc_Subscription acc in
    match s with
    | None => ret (Some (BadRequest "This account does not have an active subscription"))
    | Some s =>
      let* h := get_heap in
      let* res := do_sub_Cancel (sub_ID (read_sub h s)) in
      match res with
      | inl err => ret (Some err)
      | inr s_ =>
        assign_sub s s_ ;;;
        let* err := h_Storage_Put acc in
        match err with
        | Some err => ret (Some err)
        | None =>
          emit (HttpRedirect "/dashboard/?action=unsubscribed" StatusFound) ;;;
          let* h := get_heap in
          emit (LogPrintf (FormatRequest E r +:+ " - unsubscribe - "
                            +:+ acc_Email (read_acc h acc) +:+ nl)) ;;;
          emit (GoTrack {| te_TrackingID := ""; te_Name := "Cancel Subscription";
                           te_Properties := [] |}) ;;;
          ret None
        end
      end
    end
  end.

(** The [switch event.Type] of [StripeHook.Handle]: the customer [c] the
    event yields, [nil] for a type outside the two cases. *)
Definition StripeHook_customer (event : StripeEvent) : M (error + option loc) :=
  let t := ev_Type event in
  if decide (t = "customer.created" \/ t = "customer.updated") then
    let* d := event_Data event in
    let* res := call_alloc (Unmarshal_Customer E (data_Raw d)) in
    match res with
    | inl err => ret (inl err)
    | inr c => ret (inr (Some c))
    end
  else if decide (t = "customer.subscription.created"
                  \/ t = "customer.subscription.updated"
                  \/ t = "customer.subscription.deleted") then
    let* id := GetObjValue event "customer" in
    let* res := do_customer_Get id in
    match res with
    | inl err => ret (inl err)
    | inr c => ret (inr (Some c))
    end
  else ret (inr None).

Definition StripeHook_Handle (r : Request) (a : option AuthToken) : M (option error) :=
  match req_Body r with
  | inl err => ret (Some err)
  | inr body =>
    match Unmarshal_Event E body with
    | inl err => ret (Some err)
    | inr event =>
      let* res := StripeHook_customer event in
      match res with
      | inl err => ret (Some err)
      | inr None => ret None
      | inr (Some c) =>
        let* h := get_heap in
        let* res := h_AccountFromEmail (cus_Email (read_cus h c)) true in
        match res with
        | inl err => ret (Some err)
        | inr acc =>
          let* h := get_heap in
          match acc_Customer (read_acc h acc) with
          | None => panic
          | Some old =>
            (if decide (cus_ID (read_cus h old) = cus_ID (read_cus h c))
             then put_heap (write_acc h acc (set_Customer (read_acc h acc) c))
             else ret tt) ;;;
            let* err := h_Storage_Put acc in
            match err with
            | Some err => ret (Some err)
            | None =>
              let* h := get_heap in
              emit (LogPrintf (FormatRequest E r +:+ " - stripe_hook - "
                                +:+ acc_Email (read_acc h acc) +:+ ":"
                                +:+ ev_Type event)) ;;;
              ret None
            end
          end
        end
      end
    end
  end.

End Handlers.

(** ** A small environment to run the handlers in

    An in-memory storage keyed by email, a provider that knows customers
    by ID, declines the token ["tok_chargeDeclined"] and cannot be reached
    with the token ["tok_unreachable"], and a decoder that knows a few
    payloads. *)
Module Demo.

Record Storage := {
  up   : bool;
  rows : gmap string Account;
}.

Definition Remote : Type := gmap string Customer.

Definition new_loc {A} (m : gmap loc A) : loc := fresh (dom m).

Definition alloc_acc (h : Heap) (v : Account) : loc * Heap :=
  let l := new_loc (h_acc h) in (l, write_acc h l v).
Definition alloc_sub (h : Heap) (v : Sub) : loc * Heap :=
  let l := new_loc (h_sub h) in (l, write_sub h l v).
Definition alloc_cus (h : Heap) (v : Customer) : loc * Heap :=
  let l := new_loc (h_cus h) in
  (l, {| h_acc := h_acc h; h_cus := <[l := v]> (h_cus h); h_sub := h_sub h |}).

Definition monthly : Plan := {| plan_ID := "padlock-cloud-monthly" |}.

Definition AccountFromEmail (email : string) (create : bool)
    (s : State Storage Remote) : (error + loc) * State Storage Remote :=
  match rows (store s) !! email with
  | Some a =>
      let '(l, h) := alloc_acc (heap s) a in (inr l, mkState h (store s) (prov s))
  | None =>
      if create then
        let a := {| acc_Email := email; acc_TrackingID := ""; acc_Customer := None |} in
        let '(l, h) := alloc_acc (heap s) a in (inr l, mkState h (store s) (prov s))
      else (inl (other_error "not found"), s)
  end.

Definition Subscription (h : Heap) (acc : loc) : option loc :=
  match acc_Customer (read_acc h acc) with
  | None => None
  | Some c => head (cus_Subs (read_cus h c))
  end.

Definition HasActiveSubscription (h : Heap) (acc : loc) : bool :=
  match Subscription h acc with
  | None => false
  | Some s => bool_decide (sub_Status (read_sub h s) = "active")
  end.

Definition declined : stripe_Error :=
  {| err_Type := "card_error"; err_Code := "card_declined";
     err_Msg := "Your card was declined." |}.
Definition unreachable : stripe_Error :=
  {| err_Type := "api_connection_error"; err_Code := "";
     err_Msg := "Could not connect to Stripe." |}.

Definition SetPaymentSource (acc : loc) (token : string)
    (hp : Heap * Remote) : option error * (Heap * Remote) :=
  if decide (token = "tok_chargeDeclined") then (Some (stripe_Err declined), hp)
  else if decide (token = "tok_unreachable") then (Some (stripe_Err unreachable), hp)
  else (None, hp).

Definition EnsureSubscription (acc : loc)
    (s : State Storage Remote) : (error + loc) * State Storage Remote :=
  match Subscription (heap s) acc with
  | Some l => (inr l, s)
  | None =>
      match acc_Customer (read_acc (heap s) acc) with
      | None => (inl (other_error "no customer"), s)
      | Some c =>
          let '(l, h) := alloc_sub (heap s)
                           {| sub_ID := "sub_1"; sub_Plan := Some monthly;
                              sub_Status := "trialing"; sub_TrialEnd := 1 |} in
          let cu := read_cus h c in
          let cu' := {| cus_ID := cus_ID cu; cus_Email := cus_Email cu;
                        cus_Sources := cus_Sources cu; cus_Subs := [l] |} in
          (inr l, mkState {| h_acc := h_acc h; h_cus := <[c := cu']> (h_cus h);
                             h_sub := h_sub h |} (store s) (prov s))
      end
  end.

Definition sub_Update (id : string) (params : SubParams)
    (hp : Heap * Remote) : (error + loc) * (Heap * Remote) :=
  if decide (id = "") then (inl (stripe_Err unreachable), hp)
  else
    let '(l, h) := alloc_sub (fst hp)
                     {| sub_ID := id; sub_Plan := Some monthly;
                        sub_Status := if TrialEndNow params then "active" else "trialing";
                        sub_TrialEnd := 0 |} in
    (inr l, (h, snd hp)).

Definition sub_Cancel (id : string)
    (hp : Heap * Remote) : (error + loc) * (Heap * Remote) :=
  if decide (id = "") then (inl (stripe_Err unreachable), hp)
  else
    let '(l, h) := alloc_sub (fst hp)
                     {| sub_ID := id; sub_Plan := Some monthly;
                        sub_Status := "canceled"; sub_TrialEnd := 0 |} in
    (inr l, (h, snd hp)).

Definition customer_Get (id : string)
    (hp : Heap * Remote) : (error + loc) * (Heap * Remote) :=
  match snd hp !! id with
  | None => (inl (other_error "No such customer"), hp)
  | Some c => let '(l, h) := alloc_cus (fst hp) c in (inr l, (h, snd hp))
  end.

Definition Storage_Put (acc : loc) (h : Heap) (sto : Storage) : option error * Storage :=
  if up sto
  then (None, {| up := true;
                 rows := <[acc_Email (read_acc h acc) := read_acc h acc]> (rows sto) |})
  else (Some (other_error "storage unavailable"), sto).

Definition customer_payload (id email : string) : Customer :=
  {| cus_ID := id; cus_Email := email; cus_Sources := []; cus_Subs := [] |}.

Definition updated (id : string) : StripeEvent :=
  {| ev_Type := "customer.updated";
     ev_Data := Some {| data_Raw := id; data_Obj := ∅ |} |}.
Definition sub_deleted (id : string) : StripeEvent :=
  {| ev_Type := "customer.subscription.deleted";
     ev_Data := Some {| data_Raw := "sub_1"; data_Obj := {[ "customer" := id ]} |} |}.
Definition invoice_created : StripeEvent :=
  {| ev_Type := "invoice.created";
     ev_Data := Some {| data_Raw := "in_1"; data_Obj := ∅ |} |}.

Definition Unmarshal_Event (body : string) : error + StripeEvent :=
  if decide (body = "customer.updated cus_1") then inr (updated "cus_1")
  else if decide (body = "customer.updated cus_2") then inr (updated "cus_2")
  else if decide (body = "customer.subscription.deleted cus_1") then
    inr (sub_deleted "cus_1")
  else if decide (body = "invoice.created") then inr invoice_created
  else inl (other_error "invalid character").

Definition Unmarshal_Customer (raw : string) (h : Heap) : (error + loc) * Heap :=
  if decide (raw = "cus_1") then
    let '(l, h') := alloc_cus h (customer_payload "cus_1" "a@b.com") in (inr l, h')
  else if decide (raw = "cus_2") then
    let '(l, h') := alloc_cus h (customer_payload "cus_2" "a@b.com") in (inr l, h')
  else (inl (other_error "unexpected end of JSON input"), h).

Definition env : Env :=
  Build_Env Storage Remote
    AccountFromEmail HasActiveSubscription Subscription SetPaymentSource
    EnsureSubscription sub_Update sub_Cancel customer_Get Storage_Put
    Unmarshal_Event Unmarshal_Customer
    (fun _ => "POST /") (fun ref => ref).

(** The account of a@b.com is stored with customer cus_1, which has one
    trialing subscription. *)
Definition customer1 : Customer :=
  {| cus_ID := "cus_1"; cus_Email := "a@b.com"; cus_Sources := []; cus_Subs := [1%positive] |}.
Definition sub1 : Sub :=
  {| sub_ID := "sub_1"; sub_Plan := Some monthly; sub_Status := "trialing";
     sub_TrialEnd := 1 |}.
Definition account1 : Account :=
  {| acc_Email := "a@b.com"; acc_TrackingID := "t1"; acc_Customer := Some 1%positive |}.

Definition heap0 : Heap :=
  {| h_acc := ∅; h_cus := {[ 1%positive := customer1 ]}; h_sub := {[ 1%positive := sub1 ]} |}.

Definition state0 : State Storage Remote :=
  mkState heap0 {| up := true; rows := {[ "a@b.com" := account1 ]} |}
          {[ "cus_1" := customer1 ]}.

(** The same, but nothing is stored yet: a@b.com is created on first use. *)
Definition state_fresh : State Storage Remote :=
  mkState heap0 {| up := true; rows := ∅ |} {[ "cus_1" := customer1 ]}.

Definition post (token : string) : Request :=
  {| req_PostForm := {[ "stripeToken" := token ]}; req_Query := ∅; req_Body := inr "" |}.
Definition hook (body : string) : Request :=
  {| req_PostForm := ∅; req_Query := ∅; req_Body := inr body |}.
Definition alice : AuthToken := {| tok_account := {| pc_Email := "a@b.com" |} |}.

(** The state in which the webhook handler is at its guard. *)
Definition at_guard (event : StripeEvent) (s : State Storage Remote)
    : State Storage Remote :=
  snd (AccountFromEmail "a@b.com" true
         (state env (snd (run env (StripeHook_customer env event) s)))).

(** The card is declined when a@b.com subscribes. *)
Definition declined_call : Event :=
  CallSetPaymentSource 1%positive "tok_chargeDeclined" (Some (stripe_Err declined)).

End Demo.


(** * Statements *)

(** The event types [StripeHook.Handle] has a case for. *)
Definition recognized_types : list string :=
  [ "customer.created"; "customer.updated";
    "customer.subscription.created"; "customer.subscription.updated";
    "customer.subscription.deleted" ].

(** A [*stripe.Error] of type [stripe.ErrorTypeCard]. *)
Definition is_card_error (e : error) : bool :=
  match e with
  | stripe_Err se => bool_decide (err_Type se = ErrorTypeCard)
  | _ => false
  end.

(** What a caller's type switch on [*StripeError] sees. *)
Definition is_StripeError (e : error) : bool :=
  match e with StripeError _ => true | _ => false end.

(** The errors the stripe client hands out: a [*stripe.Error] or an error
    of another package, never a type of the handlers' own package. *)
Definition from_provider (e : error) : Prop :=
  match e with
  | stripe_Err _ | other_error _ => True
  | _ => False
  end.

(** The error of an attach-payment-source or subscription-update call. *)
Definition attach_or_update_error (ev : Event) : option error :=
  match ev with
  | CallSetPaymentSource _ _ res => res
  | CallSubUpdate _ _ res => err_of res
  | _ => None
  end.

Section Statements.
Context (E : Env).

Implicit Types (r : Request) (a : option AuthToken) (s : St E).

(** The webhook handler gets as far as its guard: the body decodes to
    [event], the switch yields the customer [c], and [acc] is the account
    resolved from [c.Email], in the state [s2]. *)
Definition hook_reaches_guard r s (event : StripeEvent) (c acc : loc) (s2 : St E) : Prop :=
  exists body,
    req_Body r = inr body /\ Unmarshal_Event E body = inr event /\
    let got := run E (StripeHook_customer E event) s in
    fst got = Done (inr (Some c)) /\
    let s1 := state E (snd got) in
    let resolved := AccountFromEmail E (cus_Email (read_cus (heap s1) c)) true s1 in
    fst resolved = inr acc /\ s2 = snd resolved.

(** The guard [acc.Customer.ID == c.ID], on an account that has a customer. *)
Definition same_ID (h : Heap) (old c : loc) : Prop :=
  cus_ID (read_cus h old) = cus_ID (read_cus h c).

Global Instance same_ID_dec h old c : Decision (same_ID h old c).
Proof. unfold same_ID. apply _. Defined.

(** C1 as the specification words it: the field is overwritten exactly
    when the account has no customer or has one with the incoming ID. *)
Definition same_ID_guard_as_stated r a s : Prop :=
  forall event c acc s2,
    hook_reaches_guard r s event c acc s2 ->
    let final := heap (state E (snd (run E (StripeHook_Handle E r a) s))) in
    acc_Customer (read_acc final acc) = Some c <->
    (acc_Customer (read_acc (heap s2) acc) = None
     \/ exists old, acc_Customer (read_acc (heap s2) acc) = Some old
                    /\ same_ID (heap s2) old c).

(** C2 as the specification words it: when the guard fails the handler
    returns nil and the storage's put is not called. *)
Definition guard_failure_skips_put_as_stated r a s : Prop :=
  forall event c acc s2 old,
    hook_reaches_guard r s event c acc s2 ->
    acc_Customer (read_acc (heap s2) acc) = Some old ->
    ~ same_ID (heap s2) old c ->
    let out := run E (StripeHook_Handle E r a) s in
    fst out = Done None
    /\ Forall (fun ev => is_store_put ev = false) (trace E (snd out)).


End Statements.

(** * The two handlers that render and record: Dashboard and Track *)

(** A Go [interface{}] value, by the dynamic types handler.go puts into
    the maps it builds; [VOther] stands for a value of any other type,
    such as the ones package pc puts into its maps. *)
#[warnings="-register-all"]
Inductive Value :=
| VNil                                 (* the nil interface *)
| VBool (b : bool)
| VInt (z : Z)                         (* int64 *)
| VString (s : string)
| VSubStatus (s : string)              (* stripe.SubStatus *)
| VPlan (p : option Plan)              (* *stripe.Plan *)
| VStrMap (m : gmap string string)     (* map[string]string *)
| VMap (m : gmap string Value)         (* map[string]interface{} *)
| VOther (repr : string).

(** [m[key]] on a [map[string]interface{}]: a missing key reads as nil. *)
Definition index (m : gmap string Value) (key : string) : Value :=
  default VNil (m !! key).

(** [v != ""] for an interface value [v]: only the string [""] is equal
    to [""]. *)
Definition not_empty_string (v : Value) : bool :=
  match v with
  | VString s => negb (bool_decide (s = ""))
  | _ => true
  end.

(** [TrackingEvent] with its [map[string]interface{}] of properties;
    [TrackingEvent] above is the case of string properties. *)
Record TrackingEventI := {
  ti_TrackingID : string;
  ti_Name       : string;
  ti_Properties : gmap string Value;
}.

(** What the two handlers do beyond the calls of [Event]. *)
Inductive ViewEvent :=
| CallExecute (params : gmap string Value) (res : error + string)
| CallTrack (ev : TrackingEventI) (res : option error)
| HeaderSet (key value : string)
| BodyWrite (body : string)
| GoTrackI (ev : TrackingEventI).

(** What Dashboard and Track call and handler.go does not define.
    [Execute] gives the content of the buffer the template wrote;
    [h.Track] is handed the event by pointer and may change it;
    [Sprintf_other] is what fmt prints with the verb s for a value that
    is not a string. *)
Record ViewEnv (E : Env) := {
  ToMap : pc_Account -> gmap string Value;
  NoSubRequired : option AuthToken -> bool;
  DashboardParams : Request -> option AuthToken -> gmap string Value;
  StripeConfig_PublicKey : string;
  MixpanelConfig_Token : string;
  Execute : gmap string Value -> error + string;
  Sprintf_other : Value -> string;
  Track : TrackingEventI -> Request -> option AuthToken -> St E
          -> (option error * TrackingEventI) * St E;
  Unmarshal_TrackingEvent : string -> error + TrackingEventI;
  Marshal_TrackingEvent : TrackingEventI -> error + string;
}.
Arguments ToMap {E}.
Arguments NoSubRequired {E}.
Arguments DashboardParams {E}.
Arguments StripeConfig_PublicKey {E}.
Arguments MixpanelConfig_Token {E}.
Arguments Execute {E}.
Arguments Sprintf_other {E}.
Arguments Track {E}.
Arguments Unmarshal_TrackingEvent {E}.
Arguments Marshal_TrackingEvent {E}.

Section Views.
Context (E : Env) (V : ViewEnv E).

Record VWorld := mkVWorld {
  vstate : St E;
  vtrace : list (Event + ViewEvent);
}.

Definition VM (A : Type) : Type := VWorld -> Outcome A * VWorld.

Definition vret {A} (a : A) : VM A := fun w => (Done a, w).

Definition vbind {A B} (m : VM A) (k : A -> VM B) : VM B :=
  fun w => match m w with
           | (Done a, w') => k a w'
           | (Panic, w') => (Panic, w')
           end.

Definition vrun {A} (m : VM A) (s : St E) : Outcome A * VWorld :=
  m (mkVWorld s []).

(** a step of the billing handlers, with its trace entries *)
Definition lift {A} (m : M E A) : VM A :=
  fun w => let out := m (mkWorld E (vstate w) []) in
           (fst out,
            mkVWorld (state E (snd out)) (vtrace w ++ (inl <$> trace E (snd out)))).

Definition vemit (e : ViewEvent) : VM unit :=
  fun w => (Done tt, mkVWorld (vstate w) (vtrace w ++ [inr e])).

Definition vpanic {A} : VM A := fun w => (Panic, w).

Definition vget_heap : VM Heap := fun w => (Done (heap (vstate w)), w).

Notation "'let*' x ':=' m 'in' k" := (vbind m (fun x => k))
  (at level 10, x name, m at level 100, k at level 200, only parsing).
Notation "m ';;;' k" := (vbind m (fun _ => k))
  (at level 100, k at level 200, right associativity, only parsing).

(** [fmt.Sprintf("action: %s", v)] *)
Definition Sprintf_action (v : Value) : string :=
  "action: " +:+ match v with
                 | VString s => s
                 | _ => Sprintf_other V v
                 end.

(** [h.Templates.Dashboard.Execute(&b, params)] *)
Definition do_Execute (params : gmap string Value) : VM (error + string) :=
  let res := Execute V params in
  vemit (CallExecute params res) ;;; vret res.

(** [h.Track(event, r, a)], called and waited for; the event behind the
    pointer is returned as the call left it. *)
Definition do_Track (event : TrackingEventI) (r : Request) (a : option AuthToken)
    : VM (option error * TrackingEventI) :=
  fun w => let out := Track V event r a (vstate w) in
           (Done (fst out),
            mkVWorld (snd out) (vtrace w ++ [inr (CallTrack event (fst (fst out)))])).

(** The account map [Dashboard.Handle] builds, from what it has read:
    the tracking identifier of the resolved account, the ensured
    subscription and the payment sources of the account's customer. *)
Definition Dashboard_accMap (acc : pc_Account) (auth : option AuthToken)
    (trackingID : string) (sub : Sub) (sources : list Card) : gmap string Value :=
  let accMap := ToMap V acc in
  let accMap := <["trackingID" := VString trackingID]> accMap in
  let accMap :=
    <["subscription" :=
        VMap (<["plan" := VPlan (sub_Plan sub)]>
              (<["status" := VSubStatus (sub_Status sub)]>
               (<["trialEnd" := VInt (sub_TrialEnd sub)]> ∅)))]> accMap in
  let accMap :=
    match sources with
    | [] => accMap
    | source :: _ =>
        <["paymentSource" :=
            VStrMap (<["brand" := card_Brand source]>
                     (<["lastFour" := card_LastFour source]> ∅))]> accMap
    end in
  <["displaySubscription" := VBool (negb (NoSubRequired V auth))]> accMap.

(** The template parameters before the reference is set. *)
Definition Dashboard_params (r : Request) (auth : option AuthToken)
    (accMap : gmap string Value) : gmap string Value :=
  let params := DashboardParams V r auth in
  let params := <["account" := VMap accMap]> params in
  let params := <["stripePublicKey" := VString (StripeConfig_PublicKey V)]> params in
  <["mixpanelToken" := VString (MixpanelConfig_Token V)]> params.

(** The reference: the one of the query, or one made of the action. *)
Definition Dashboard_ref (r : Request) (params : gmap string Value) : string :=
  let ref := Query_Get r "ref" in
  if bool_decide (ref = "") && not_empty_string (index params "action")
  then Sprintf_action (index params "action")
  else ref.

(** [Dashboard.Handle]. [subAcc.Customer.Sources.Values] is the list of
    cards of the record [Customer]: the list and the card of each source
    are taken to be there when the customer is; the two configuration
    values are read as the strings they hold. *)
Definition Dashboard_Handle (r : Request) (auth : option AuthToken) : VM (option error) :=
  let* acc := lift (a_Account E auth) in
  let* res := lift (h_AccountFromEmail E (pc_Email acc) true) in
  match res with
  | inl err => vret (Some err)
  | inr subAcc =>
    let* h := vget_heap in
    let trackingID := acc_TrackingID (read_acc h subAcc) in
    let* res := lift (do_EnsureSubscription E subAcc) in
    match res with
    | inl err => vret (Some err)
    | inr sub =>
      let* h := vget_heap in
      match acc_Customer (read_acc h subAcc) with
      | None => vpanic
      | Some c =>
        let accMap := Dashboard_accMap acc auth trackingID (read_sub h sub)
                        (cus_Sources (read_cus h c)) in
        let params := Dashboard_params r auth accMap in
        let ref := Dashboard_ref r params in
        let params := <["ref" := VString ref]> params in
        let* res := do_Execute params in
        match res with
        | inl err => vret (Some err)
        | inr b =>
          vemit (BodyWrite b) ;;;
          vemit (GoTrackI {| ti_TrackingID := Query_Get r "tid";
                             ti_Name := "Open Dashboard";
                             ti_Properties :=
                               <["Action" := index params "action"]>
                               (<["Source" := VString (sourceFromRef E ref)]> ∅) |}) ;;;
          vret None
        end
      end
    end
  end.

(** [Track.Handle] *)
Definition Track_Handle (r : Request) (a : option AuthToken) : VM (option error) :=
  match req_Body r with
  | inl err => vret (Some err)
  | inr body =>
    match Unmarshal_TrackingEvent V body with
    | inl err => vret (Some err)
    | inr event =>
      let* tracked := do_Track event r a in
      match fst tracked with
      | Some err => vret (Some err)
      | None =>
        let event := snd tracked in
        match Marshal_TrackingEvent V event with
        | inl err => vret (Some err)
        | inr response =>
          vemit (HeaderSet "Content-Type" "application/json") ;;;
          vemit (BodyWrite response) ;;;
          vret None
        end
      end
    end
  end.

End Views.

(** ** A small environment for the two handlers

    The dashboard parameters carry the action of the query string, the
    template fails for the reference ["broken"], and the tracker refuses
    an event without a name and gives an event without a tracking
    identifier a new one. *)
Module DemoView.

Definition ToMap (acc : pc_Account) : gmap string Value :=
  {[ "email" := VString (pc_Email acc) ]}.

Definition DashboardParams (r : Request) (auth : option AuthToken) : gmap string Value :=
  {[ "action" := VString (Query_Get r "action") ]}.

Definition Execute (params : gmap string Value) : error + string :=
  match params !! "ref" with
  | Some (VString "broken") => inl (other_error "template: dashboard: broken")
  | _ => inr "<html>dashboard</html>"
  end.

Definition Track (event : TrackingEventI) (r : Request) (a : option AuthToken)
    (s : St Demo.env) : (option error * TrackingEventI) * St Demo.env :=
  if decide (ti_Name event = "") then (Some (other_error "no event name"), event, s)
  else if decide (ti_TrackingID event = "") then
    (None, {| ti_TrackingID := "tid_1"; ti_Name := ti_Name event;
              ti_Properties := ti_Properties event |}, s)
  else (None, event, s).

Definition Unmarshal_TrackingEvent (body : string) : error + TrackingEventI :=
  if decide (body = "open app") then
    inr {| ti_TrackingID := ""; ti_Name := "Open App"; ti_Properties := ∅ |}
  else if decide (body = "no name") then
    inr {| ti_TrackingID := ""; ti_Name := ""; ti_Properties := ∅ |}
  else inl (other_error "invalid character").

Definition Marshal_TrackingEvent (event : TrackingEventI) : error + string :=
  inr (ti_Name event +:+ " " +:+ ti_TrackingID event).

Definition env : ViewEnv Demo.env :=
  Build_ViewEnv Demo.env ToMap (fun _ => false) DashboardParams
    "pk_test" "mp_test" Execute (fun _ => "%!s(<nil>)")
    Track Unmarshal_TrackingEvent Marshal_TrackingEvent.

Definition get (query : gmap string string) : Request :=
  {| req_PostForm := ∅; req_Query := query; req_Body := inr "" |}.

End DemoView.

(** ** The environment with faults

    As [Demo.env], except that the account of nobody@b.com cannot be
    resolved, an updated subscription comes back without a plan, and the
    body ["customer.updated"] decodes to an event without data. *)
Module DemoFaults.

Definition AccountFromEmail (email : string) (create : bool)
    (s : State Demo.Storage Demo.Remote)
    : (error + loc) * State Demo.Storage Demo.Remote :=
  if decide (email = "nobody@b.com") then (inl (other_error "storage unavailable"), s)
  else Demo.AccountFromEmail email create s.

Definition sub_Update (id : string) (params : SubParams)
    (hp : Heap * Demo.Remote) : (error + loc) * (Heap * Demo.Remote) :=
  let '(l, h) := Demo.alloc_sub (fst hp)
                   {| sub_ID := id; sub_Plan := None; sub_Status := "active";
                      sub_TrialEnd := 0 |} in
  (inr l, (h, snd hp)).

Definition no_data : StripeEvent :=
  {| ev_Type := "customer.updated"; ev_Data := None |}.

Definition Unmarshal_Event (body : string) : error + StripeEvent :=
  if decide (body = "customer.updated") then inr no_data
  else Demo.Unmarshal_Event body.

Definition env : Env :=
  Build_Env Demo.Storage Demo.Remote
    AccountFromEmail Demo.HasActiveSubscription Demo.Subscription
    Demo.SetPaymentSource Demo.EnsureSubscription sub_Update Demo.sub_Cancel
    Demo.customer_Get Demo.Storage_Put Unmarshal_Event Demo.Unmarshal_Customer
    (fun _ => "POST /") (fun ref => ref).

Definition nobody : AuthToken := {| tok_account := {| pc_Email := "nobody@b.com" |} |}.

(** [Demo.state0] with a storage that refuses every put. *)
Definition state_down : State Demo.Storage Demo.Remote :=
  mkState Demo.heap0
          {| Demo.up := false; Demo.rows := {[ "a@b.com" := Demo.account1 ]} |}
          {[ "cus_1" := Demo.customer1 ]}.

(** [Demo.state0] with a subscription the provider refuses to cancel. *)
Definition state_unnamed : State Demo.Storage Demo.Remote :=
  mkState {| h_acc := ∅; h_cus := {[ 1%positive := Demo.customer1 ]};
             h_sub := {[ 1%positive :=
                           {| sub_ID := ""; sub_Plan := Some Demo.monthly;
                              sub_Status := "trialing"; sub_TrialEnd := 1 |} ]} |}
          {| Demo.up := true; Demo.rows := {[ "a@b.com" := Demo.account1 ]} |}
          {[ "cus_1" := Demo.customer1 ]}.

(** [Demo.state0] with a provider that knows no customer. *)
Definition state_no_remote : State Demo.Storage Demo.Remote :=
  mkState Demo.heap0
          {| Demo.up := true; Demo.rows := {[ "a@b.com" := Demo.account1 ]} |}
          ∅.

Definition sub_deleted_data : EventData :=
  {| data_Raw := "sub_1"; data_Obj := {[ "customer" := "cus_1" ]} |}.

End DemoFaults.

(** ** Predicates for the further properties *)

(** The entries a run of the webhook handler can have. *)
Definition is_hook_entry (ev : Event) : bool :=
  match ev with
  | CallCustomerGet _ _ | CallAccountFromEmail _ true _
  | CallStoragePut _ _ | LogPrintf _ => true
  | _ => false
  end.

(** The two cases of the switch of [StripeHook.Handle]. *)
Definition customer_types : list string :=
  [ "customer.created"; "customer.updated" ].
Definition subscription_types : list string :=
  [ "customer.subscription.created"; "customer.subscription.updated";
    "customer.subscription.deleted" ].

Definition is_customer_Get (ev : Event) : bool :=
  match ev with CallCustomerGet _ _ => true | _ => false end.

(** The entries a run of the dashboard handler can have. *)
Definition is_dashboard_entry (ev : Event + ViewEvent) : bool :=
  match ev with
  | inl (CallAccountFromEmail _ true _) | inl (CallEnsureSubscription _ _)
  | inr (CallExecute _ _) | inr (BodyWrite _) | inr (GoTrackI _) => true
  | _ => false
  end.

(** What reaches the client or the tracker. *)
Definition is_view_output (ev : Event + ViewEvent) : bool :=
  match ev with
  | inr (HeaderSet _ _) | inr (BodyWrite _) | inr (GoTrackI _) => true
  | inl e => is_response e
  | _ => false
  end.

(** * Properties *)

Ltac unfold_handler :=
  unfold run, Subscribe_Handle, Unsubscribe_Handle, StripeHook_Handle,
    StripeHook_customer, h_AccountFromEmail, acc_HasActiveSubscription,
    acc_Subscription, acc_SetPaymentSource, do_EnsureSubscription,
    do_sub_Update, do_sub_Cancel, do_customer_Get, h_Storage_Put, assign_sub,
    a_Account, event_Data, GetObjValue, call_server, call_provider,
    call_storage, call_alloc, get_heap, put_heap, emit, bind, ret, panic in *;
  cbn [state trace heap store prov fst snd app] in *.

Section Properties.
Context (E : Env).

Implicit Types (r : Request) (a : option AuthToken) (s : St E).

(** *** wrapCardError *)

Lemma wrapCardError_card (se : stripe_Error) :
  err_Type se = ErrorTypeCard -> wrapCardError (stripe_Err se) = StripeError se.
Proof. intros H. unfold wrapCardError. by rewrite decide_True. Qed.

Lemma wrapCardError_other (e : error) :
  is_card_error e = false -> wrapCardError e = e.
Proof.
  destruct e as [| | se | |]; cbn; try done.
  intros H. apply bool_decide_eq_false in H. by rewrite decide_False.
Qed.

Lemma wrapCardError_kind (e : error) :
  from_provider e -> is_StripeError (wrapCardError e) = is_card_error e.
Proof.
  destruct e as [| | se | |]; cbn; try done. intros _.
  destruct (decide (err_Type se = ErrorTypeCard)) as [H|H].
  - by rewrite bool_decide_eq_true_2.
  - by rewrite bool_decide_eq_false_2.
Qed.

(** *** The auth token *)

(** C10: with a nil auth token, Subscribe answers with the
    invalid-auth-token error and does nothing else (no call is made, the
    state is as it was), while Unsubscribe, which has no such check,
    panics on the dereference in [a.Account()]; with a non-nil token
    Unsubscribe never panics. *)
Theorem nil_auth_token r s :
  run E (Subscribe_Handle E r None) s = (Done (Some InvalidAuthToken), mkWorld E s [])
  /\ run E (Unsubscribe_Handle E r None) s = (Panic, mkWorld E s [])
  /\ forall tok, fst (run E (Unsubscribe_Handle E r (Some tok)) s) <> Panic.
Proof.
  split; [reflexivity|]. split; [reflexivity|].
  intros tok. unfold_handler. repeat (case_match; cbn [fst]); done.
Qed.

(** *** Subscribe: the token check *)


(** *** Unsubscribe without a subscription *)

(** C6: when the resolved account has no subscription reference,
    Unsubscribe returns the malformed-request error; the only call of the
    invocation is the account resolution, so the provider is not called
    and the storage is not written, and the state is the one the
    resolution left. *)
Theorem Unsubscribe_without_subscription r tok s acc :
  let resolved := AccountFromEmail E (pc_Email (tok_account tok)) true s in
  let out := run E (Unsubscribe_Handle E r (Some tok)) s in
  fst resolved = inr acc ->
  Subscription E (heap (snd resolved)) acc = None ->
  fst out = Done (Some (BadRequest "This account does not have an active subscription"))
  /\ state E (snd out) = snd resolved
  /\ trace E (snd out) = [CallAccountFromEmail (pc_Email (tok_account tok)) true (inr acc)]
  /\ Forall (fun ev => is_provider_call ev = false /\ is_store_put ev = false)
            (trace E (snd out)).
Proof.
  intros resolved out Hacc Hsub. subst resolved out. unfold_handler.
  rewrite Hacc. cbn [state heap]. rewrite Hsub. cbn.
  repeat split; try done. by repeat constructor.
Qed.

(** *** The webhook: event types without a case *)

(** C9: for an event whose type is none of the five the handler has a
    case for, the webhook handler returns nil, resolves no account and
    calls neither the provider nor the storage: the world is as it was. *)
Theorem StripeHook_unrecognized_event r a s body event :
  req_Body r = inr body ->
  Unmarshal_Event E body = inr event ->
  ev_Type event ∉ recognized_types ->
  run E (StripeHook_Handle E r a) s = (Done None, mkWorld E s []).
Proof.
  intros Hbody Hev Hty. unfold run, StripeHook_Handle, StripeHook_customer.
  rewrite Hbody, Hev. unfold recognized_types in Hty.
  rewrite !not_elem_of_cons in Hty. destruct Hty as (H1 & H2 & H3 & H4 & H5 & _).
  cbn zeta. rewrite !decide_False by tauto. reflexivity.
Qed.

(** *** The webhook: the same-ID guard *)

(** What the webhook handler does once it is at its guard with an account
    that has a customer: the assignment if the IDs agree, then the put. *)
Lemma StripeHook_at_guard r a s event c acc s2 old :
  hook_reaches_guard E r s event c acc s2 ->
  acc_Customer (read_acc (heap s2) acc) = Some old ->
  let got := run E (StripeHook_customer E event) s in
  let email := cus_Email (read_cus (heap (state E (snd got))) c) in
  let h' := if decide (same_ID (heap s2) old c)
            then write_acc (heap s2) acc (set_Customer (read_acc (heap s2) acc) c)
            else heap s2 in
  let put := Storage_Put E acc h' (store s2) in
  run E (StripeHook_Handle E r a) s =
  (Done (fst put),
   mkWorld E (mkState h' (snd put) (prov s2))
     (trace E (snd got)
      ++ [CallAccountFromEmail email true (inr acc); CallStoragePut acc (fst put)]
      ++ match fst put with
         | Some _ => []
         | None => [LogPrintf (FormatRequest E r +:+ " - stripe_hook - "
                                +:+ acc_Email (read_acc h' acc) +:+ ":"
                                +:+ ev_Type event)]
         end)).
Proof.
  intros (body & Hbody & Hev & Hc & Hacc & ->) Hold. cbn zeta in *.
  unfold run, StripeHook_Handle in *. rewrite Hbody, Hev.
  unfold bind at 1.
  destruct (StripeHook_customer E event _) as [o w1]. cbn [fst snd] in *. subst o.
  unfold_handler. rewrite Hacc. cbn [state heap]. rewrite Hold.
  destruct (decide (same_ID _ old c)) as [Hid|Hid];
    [rewrite decide_True by exact Hid | rewrite decide_False by exact Hid];
    cbn [state heap store prov trace];
    destruct (fst (Storage_Put E _ _ _)) eqn:Hput; cbn [state heap store prov trace];
    rewrite <- ?app_assoc; reflexivity.
Qed.

(** At the guard with an account whose Customer is nil, the handler
    panics on [acc.Customer.ID]: nothing is assigned and nothing is put. *)
Lemma StripeHook_nil_Customer_panics r a s event c acc s2 :
  hook_reaches_guard E r s event c acc s2 ->
  acc_Customer (read_acc (heap s2) acc) = None ->
  let got := run E (StripeHook_customer E event) s in
  let email := cus_Email (read_cus (heap (state E (snd got))) c) in
  run E (StripeHook_Handle E r a) s =
  (Panic, mkWorld E s2 (trace E (snd got)
                        ++ [CallAccountFromEmail email true (inr acc)])).
Proof.
  intros (body & Hbody & Hev & Hc & Hacc & ->) Hnil. cbn zeta in *.
  unfold run, StripeHook_Handle in *. rewrite Hbody, Hev.
  unfold bind at 1.
  destruct (StripeHook_customer E event _) as [o w1]. cbn [fst snd] in *. subst o.
  unfold_handler. rewrite Hacc. cbn [state heap]. by rewrite Hnil.
Qed.

(** C1, amended: for a recognized event that yields a customer [c] and an
    account that has a local customer, the account's Customer field is
    overwritten with [c] if and only if the local customer's ID equals
    [c]'s; with equal IDs the assignment is the only change to memory,
    with different IDs memory is left as it was. *)
Theorem same_ID_guard r a s event c acc s2 old :
  hook_reaches_guard E r s event c acc s2 ->
  acc_Customer (read_acc (heap s2) acc) = Some old ->
  let final := heap (state E (snd (run E (StripeHook_Handle E r a) s))) in
  (acc_Customer (read_acc final acc) = Some c <-> same_ID (heap s2) old c)
  /\ (same_ID (heap s2) old c ->
      final = write_acc (heap s2) acc (set_Customer (read_acc (heap s2) acc) c))
  /\ (~ same_ID (heap s2) old c -> final = heap s2).
Proof.
  intros Hreach Hold final. subst final.
  rewrite (StripeHook_at_guard r a s event c acc s2 old Hreach Hold).
  cbn [snd state heap]. case_decide as Hid.
  - split; [|split; [done|tauto]].
    split; [done|]. intros _. unfold read_acc, write_acc. cbn.
    by rewrite lookup_total_insert_eq.
  - split; [|split; [tauto|done]].
    split; [|tauto]. intros Hc. rewrite Hold in Hc.
    injection Hc as ->. by destruct Hid.
Qed.

(** C2, amended: for a recognized event whose guard fails (the account
    has a local customer with another ID), memory is left as it was, and
    the handler still calls the storage's put for the account, as it does
    after an overwrite: it returns nil when the put succeeds and the
    put's error when it fails. *)
Theorem guard_failure_still_puts r a s event c acc s2 old :
  hook_reaches_guard E r s event c acc s2 ->
  acc_Customer (read_acc (heap s2) acc) = Some old ->
  ~ same_ID (heap s2) old c ->
  let out := run E (StripeHook_Handle E r a) s in
  let put := Storage_Put E acc (heap s2) (store s2) in
  heap (state E (snd out)) = heap s2
  /\ CallStoragePut acc (fst put) ∈ trace E (snd out)
  /\ store (state E (snd out)) = snd put
  /\ fst out = Done (fst put).
Proof.
  intros Hreach Hold Hid out put. subst out put.
  rewrite (StripeHook_at_guard r a s event c acc s2 old Hreach Hold).
  rewrite decide_False by done. cbn [fst snd state heap store trace].
  repeat split. set_solver.
Qed.

(** *** Subscribe: failures of the provider *)


(** C5: when the attach-payment-source call or the subscription-update
    call of an invocation of Subscribe returned the provider error [e],
    the handler returns [wrapCardError e]: the card-error wrapper around
    [e] if [e] is a card error, [e] itself otherwise; a caller tells the
    two apart by the wrapper. *)
Theorem Subscribe_card_error_classification r a s ev e :
  let out := run E (Subscribe_Handle E r a) s in
  from_provider e ->
  ev ∈ trace E (snd out) ->
  attach_or_update_error ev = Some e ->
  fst out = Done (Some (wrapCardError e))
  /\ (is_card_error e = true ->
      exists se, e = stripe_Err se /\ wrapCardError e = StripeError se)
  /\ (is_card_error e = false -> wrapCardError e = e)
  /\ is_StripeError (wrapCardError e) = is_card_error e.
Proof.
  intros out Hprov Hev Herr. subst out.
  split; [|split; [|split]].
  - unfold run, Subscribe_Handle in *. destruct a as [tok|]; [|set_solver].
    cbn zeta in *. case_decide; [set_solver|].
    unfold_handler.
    repeat (case_match; cbn [state trace heap store prov fst snd app] in * );
      repeat match goal with
        | H : _ ∈ _ :: _ |- _ => apply elem_of_cons in H; destruct H as [->|H]
        | H : _ ∈ [] |- _ => by apply elem_of_nil in H
        | H : attach_or_update_error _ = Some _ |- _ => cbn in H
        end;
      by simplify_eq.
  - destruct e as [| | se | |]; cbn; try done.
    intros H%bool_decide_eq_true. exists se. by rewrite decide_True.
  - apply wrapCardError_other.
  - by apply wrapCardError_kind.
Qed.

(** *** Subscribe: the label of the outcome *)

(** C4: an invocation of Subscribe that returns nil ends with one
    redirect and one tracking event, and both are fixed by whether the
    account had an active subscription in the state the account
    resolution left, before the handler changed anything: "subscribed"
    and "Buy Subscription" if it had none, "payment-updated" and "Update
    Payment Method" if it had one. *)
Theorem Subscribe_outcome_label r a s :
  let out := run E (Subscribe_Handle E r a) s in
  fst out = Done None ->
  exists tok acc,
    a = Some tok /\
    let resolved := AccountFromEmail E (pc_Email (tok_account tok)) true s in
    fst resolved = inr acc /\
    let newSubscription := negb (HasActiveSubscription E (heap (snd resolved)) acc) in
    exists (calls : list Event) line props,
      trace E (snd out) =
        (calls ++
        [ HttpRedirect ("/dashboard/?action="
                    +:+ (if newSubscription then "subscribed" else "payment-updated"))
                   StatusFound;
          LogPrintf line;
          GoTrack {| te_TrackingID := "";
                     te_Name := if newSubscription then "Buy Subscription"
                                else "Update Payment Method";
                     te_Properties := props |} ])%list
      /\ Forall (fun ev => is_response ev = false) calls.
Proof.
  intros out Hok. subst out.
  unfold run, Subscribe_Handle in *. destruct a as [tok|]; [|done].
  cbn zeta in *. case_decide; [done|].
  exists tok. unfold_handler.
  destruct (fst (AccountFromEmail E _ _ _)) as [?|acc] eqn:Hacc; [done|].
  exists acc. split; [done|]. split; [done|].
  repeat (case_match; cbn [state trace heap store prov fst snd app] in * );
    try discriminate;
    (eexists [_; _; _; _; _], _, _; split; [reflexivity|]; by repeat constructor).
Qed.

(** *** Unsubscribe: the canceled record *)

(** C8: in an invocation of Unsubscribe that returns nil, the object
    behind the account's subscription pointer is overwritten with the
    provider's cancel response and nothing else in memory is written:
    the account object and every customer object, with the pointers they
    hold, are as the cancel call left them, so an accessor that follows
    pointers finds the same subscription; the put of the account comes
    after the overwrite and sees it. *)
Theorem Unsubscribe_keeps_canceled_record r a s :
  let out := run E (Unsubscribe_Handle E r a) s in
  fst out = Done None ->
  exists (tok : AuthToken) (acc sub s_ : loc),
    a = Some tok /\
    let resolved := AccountFromEmail E (pc_Email (tok_account tok)) true s in
    let s1 := snd resolved in
    fst resolved = inr acc /\
    Subscription E (heap s1) acc = Some sub /\
    let canceled := sub_Cancel E (sub_ID (read_sub (heap s1) sub)) (heap s1, prov s1) in
    let h2 := fst (snd canceled) in
    let final := heap (state E (snd out)) in
    fst canceled = inr s_ /\
    final = write_sub h2 sub (read_sub h2 s_) /\
    read_sub final sub = read_sub h2 s_ /\
    read_acc final acc = read_acc h2 acc /\
    h_cus final = h_cus h2 /\
    ((forall h l v, Subscription E (write_sub h l v) acc = Subscription E h acc) ->
     Subscription E final acc = Subscription E h2 acc) /\
    Storage_Put E acc final (store s1) = (None, store (state E (snd out))) /\
    trace E (snd out) =
      [ CallAccountFromEmail (pc_Email (tok_account tok)) true (inr acc);
        CallSubCancel (sub_ID (read_sub (heap s1) sub)) (inr s_);
        CallStoragePut acc None;
        HttpRedirect "/dashboard/?action=unsubscribed" StatusFound;
        LogPrintf (FormatRequest E r +:+ " - unsubscribe - "
                    +:+ acc_Email (read_acc final acc) +:+ nl);
        GoTrack {| te_TrackingID := ""; te_Name := "Cancel Subscription";
                   te_Properties := [] |} ].
Proof.
  intros out Hok. subst out.
  unfold run, Unsubscribe_Handle in *. destruct a as [tok|]; [|done].
  exists tok. unfold_handler.
  destruct (fst (AccountFromEmail E _ _ _)) as [?|acc] eqn:Hacc; [done|].
  exists acc. cbn [state trace heap store prov fst snd app] in *.
  destruct (Subscription E _ acc) as [sub|] eqn:Hsub; [|done].
  exists sub. cbn [state trace heap store prov fst snd app] in *.
  destruct (fst (sub_Cancel E _ _)) as [?|s_] eqn:Hcancel; [done|].
  exists s_. cbn [state trace heap store prov fst snd app] in *.
  destruct (fst (Storage_Put E _ _ _)) as [?|] eqn:Hput; [done|].
  cbn [state trace heap store prov fst snd app] in *.
  split; [done|]. split; [done|]. split; [done|]. split; [done|].
  split; [done|].
  split; [unfold read_sub, write_sub; cbn; by rewrite lookup_total_insert_eq|].
  split; [done|]. split; [done|].
  split; [intros Hframe; apply Hframe|].
  split; [|done].
  rewrite <- Hput. apply surjective_pairing.
Qed.

End Properties.

(** * The theorems at work, and where the specification's wording fails *)

Section Runs.
Local Open Scope positive_scope.

(** C1: customer.updated for cus_1 arrives, a@b.com is stored with cus_1:
    the field is overwritten with the incoming customer. *)
Lemma same_ID_guard_witness :
  hook_reaches_guard Demo.env (Demo.hook "customer.updated cus_1") Demo.state0
    (Demo.updated "cus_1") 2 1 (Demo.at_guard (Demo.updated "cus_1") Demo.state0)
  /\ acc_Customer (read_acc (heap (Demo.at_guard (Demo.updated "cus_1") Demo.state0)) 1)
     = Some 1
  /\ (acc_Customer
        (read_acc
           (heap (state Demo.env
                    (snd (run Demo.env
                            (StripeHook_Handle Demo.env
                               (Demo.hook "customer.updated cus_1") None)
                            Demo.state0)))) 1) = Some 2
      <-> same_ID (heap (Demo.at_guard (Demo.updated "cus_1") Demo.state0)) 1 2).
Proof.
  assert (Hreach : hook_reaches_guard Demo.env (Demo.hook "customer.updated cus_1")
                     Demo.state0 (Demo.updated "cus_1") 2 1
                     (Demo.at_guard (Demo.updated "cus_1") Demo.state0)).
  { exists "customer.updated cus_1". repeat split; vm_compute; reflexivity. }
  assert (Hold : acc_Customer
                   (read_acc (heap (Demo.at_guard (Demo.updated "cus_1") Demo.state0)) 1)
                 = Some 1) by (vm_compute; reflexivity).
  split; [exact Hreach|]. split; [exact Hold|].
  exact (proj1 (same_ID_guard Demo.env _ None _ _ _ _ _ _ Hreach Hold)).
Defined.

(** C1, as worded, fails when the account has no customer: a@b.com is
    not stored yet, the account made for it has a nil Customer, and the
    handler panics at the guard instead of assigning. *)
Lemma same_ID_guard_as_stated_fails :
  ~ same_ID_guard_as_stated Demo.env (Demo.hook "customer.updated cus_1") None
      Demo.state_fresh.
Proof.
  intros H.
  assert (Hreach : hook_reaches_guard Demo.env (Demo.hook "customer.updated cus_1")
                     Demo.state_fresh (Demo.updated "cus_1") 2 1
                     (Demo.at_guard (Demo.updated "cus_1") Demo.state_fresh)).
  { exists "customer.updated cus_1". repeat split; vm_compute; reflexivity. }
  apply H in Hreach. cbn zeta in Hreach. destruct Hreach as [_ Hover].
  assert (Hfield : acc_Customer
                     (read_acc
                        (heap (state Demo.env
                                 (snd (run Demo.env
                                         (StripeHook_Handle Demo.env
                                            (Demo.hook "customer.updated cus_1") None)
                                         Demo.state_fresh)))) 1) = Some 2).
  { apply Hover. left. vm_compute. reflexivity. }
  vm_compute in Hfield. discriminate Hfield.
Qed.

(** C2: customer.updated for cus_2 arrives, a@b.com is stored with
    cus_1: memory is left alone and the account is put all the same. *)
Lemma guard_failure_still_puts_witness :
  hook_reaches_guard Demo.env (Demo.hook "customer.updated cus_2") Demo.state0
    (Demo.updated "cus_2") 2 1 (Demo.at_guard (Demo.updated "cus_2") Demo.state0)
  /\ acc_Customer (read_acc (heap (Demo.at_guard (Demo.updated "cus_2") Demo.state0)) 1)
     = Some 1
  /\ ~ same_ID (heap (Demo.at_guard (Demo.updated "cus_2") Demo.state0)) 1 2
  /\ CallStoragePut 1
       (fst (Storage_Put Demo.env 1
               (heap (Demo.at_guard (Demo.updated "cus_2") Demo.state0))
               (store (Demo.at_guard (Demo.updated "cus_2") Demo.state0))))
     ∈ trace Demo.env
         (snd (run Demo.env
                 (StripeHook_Handle Demo.env (Demo.hook "customer.updated cus_2") None)
                 Demo.state0)).
Proof.
  assert (Hreach : hook_reaches_guard Demo.env (Demo.hook "customer.updated cus_2")
                     Demo.state0 (Demo.updated "cus_2") 2 1
                     (Demo.at_guard (Demo.updated "cus_2") Demo.state0)).
  { exists "customer.updated cus_2". repeat split; vm_compute; reflexivity. }
  assert (Hold : acc_Customer
                   (read_acc (heap (Demo.at_guard (Demo.updated "cus_2") Demo.state0)) 1)
                 = Some 1) by (vm_compute; reflexivity).
  assert (Hid : ~ same_ID (heap (Demo.at_guard (Demo.updated "cus_2") Demo.state0)) 1 2).
  { vm_compute. intros Heq. discriminate Heq. }
  split; [exact Hreach|]. split; [exact Hold|]. split; [exact Hid|].
  exact (proj1 (proj2 (guard_failure_still_puts Demo.env _ None _ _ _ _ _ _
                         Hreach Hold Hid))).
Defined.

(** C2, as worded, fails on the same run: the guard fails and the
    storage's put is called. *)
Lemma guard_failure_skips_put_as_stated_fails :
  ~ guard_failure_skips_put_as_stated Demo.env (Demo.hook "customer.updated cus_2") None
      Demo.state0.
Proof.
  intros H.
  assert (Hreach : hook_reaches_guard Demo.env (Demo.hook "customer.updated cus_2")
                     Demo.state0 (Demo.updated "cus_2") 2 1
                     (Demo.at_guard (Demo.updated "cus_2") Demo.state0)).
  { exists "customer.updated cus_2". repeat split; vm_compute; reflexivity. }
  assert (Hold : acc_Customer
                   (read_acc (heap (Demo.at_guard (Demo.updated "cus_2") Demo.state0)) 1)
                 = Some 1) by (vm_compute; reflexivity).
  assert (Hid : ~ same_ID (heap (Demo.at_guard (Demo.updated "cus_2") Demo.state0)) 1 2).
  { vm_compute. intros Heq. discriminate Heq. }
  destruct (H _ _ _ _ _ Hreach Hold Hid) as [_ Hput].
  rewrite Forall_forall in Hput.
  specialize (Hput (CallStoragePut 1 None)). cbn in Hput.
  assert (Hput' : true = false); [|discriminate Hput'].
  apply Hput. vm_compute. by repeat constructor.
Qed.


(** C4: a@b.com has a trialing subscription, not an active one, when it
    subscribes: the label is the one of a new subscription. *)
Lemma Subscribe_outcome_label_witness :
  fst (run Demo.env (Subscribe_Handle Demo.env (Demo.post "tok_visa") (Some Demo.alice))
         Demo.state0) = Done None
  /\ exists tok acc,
      Some Demo.alice = Some tok /\
      fst (AccountFromEmail Demo.env (pc_Email (tok_account tok)) true Demo.state0)
      = inr acc /\
      exists (calls : list Event) line props,
        trace Demo.env
          (snd (run Demo.env
                  (Subscribe_Handle Demo.env (Demo.post "tok_visa") (Some Demo.alice))
                  Demo.state0)) =
        (calls ++
         [ HttpRedirect
             ("/dashboard/?action="
              +:+ (if negb (HasActiveSubscription Demo.env
                              (heap (snd (AccountFromEmail Demo.env
                                            (pc_Email (tok_account tok)) true
                                            Demo.state0))) acc)
                   then "subscribed" else "payment-updated"))
             StatusFound;
           LogPrintf line;
           GoTrack {| te_TrackingID := "";
                      te_Name :=
                        if negb (HasActiveSubscription Demo.env
                                   (heap (snd (AccountFromEmail Demo.env
                                                 (pc_Email (tok_account tok)) true
                                                 Demo.state0))) acc)
                        then "Buy Subscription" else "Update Payment Method";
                      te_Properties := props |} ])%list
        /\ Forall (fun ev => is_response ev = false) calls.
Proof.
  assert (Hok : fst (run Demo.env
                       (Subscribe_Handle Demo.env (Demo.post "tok_visa")
                          (Some Demo.alice)) Demo.state0) = Done None)
    by (vm_compute; reflexivity).
  split; [exact Hok|].
  exact (Subscribe_outcome_label Demo.env _ _ _ Hok).
Defined.

(** C5: the declined card is a card error and comes back in the wrapper. *)
Lemma Subscribe_card_error_classification_witness :
  from_provider (stripe_Err Demo.declined)
  /\ Demo.declined_call
     ∈ trace Demo.env
         (snd (run Demo.env
                 (Subscribe_Handle Demo.env (Demo.post "tok_chargeDeclined")
                    (Some Demo.alice)) Demo.state0))
  /\ attach_or_update_error Demo.declined_call = Some (stripe_Err Demo.declined)
  /\ fst (run Demo.env
            (Subscribe_Handle Demo.env (Demo.post "tok_chargeDeclined")
               (Some Demo.alice)) Demo.state0)
     = Done (Some (wrapCardError (stripe_Err Demo.declined))).
Proof.
  assert (Hev : Demo.declined_call
                ∈ trace Demo.env
                    (snd (run Demo.env
                            (Subscribe_Handle Demo.env (Demo.post "tok_chargeDeclined")
                               (Some Demo.alice)) Demo.state0))).
  { vm_compute. do 2 constructor. }
  split; [exact I|]. split; [exact Hev|]. split; [reflexivity|].
  exact (proj1 (Subscribe_card_error_classification Demo.env _ _ _ _
                  (stripe_Err Demo.declined) I Hev eq_refl)).
Defined.

(** C6: a@b.com is not stored yet, so the account made for it has no
    subscription to cancel. *)
Lemma Unsubscribe_without_subscription_witness :
  fst (AccountFromEmail Demo.env (pc_Email (tok_account Demo.alice)) true
         Demo.state_fresh) = inr 1
  /\ Subscription Demo.env
       (heap (snd (AccountFromEmail Demo.env (pc_Email (tok_account Demo.alice)) true
                     Demo.state_fresh))) 1 = None
  /\ fst (run Demo.env (Unsubscribe_Handle Demo.env (Demo.post "") (Some Demo.alice))
            Demo.state_fresh)
     = Done (Some (BadRequest "This account does not have an active subscription")).
Proof.
  assert (Hacc : fst (AccountFromEmail Demo.env (pc_Email (tok_account Demo.alice)) true
                        Demo.state_fresh) = inr 1) by (vm_compute; reflexivity).
  assert (Hsub : Subscription Demo.env
                   (heap (snd (AccountFromEmail Demo.env
                                 (pc_Email (tok_account Demo.alice)) true
                                 Demo.state_fresh))) 1 = None)
    by (vm_compute; reflexivity).
  split; [exact Hacc|]. split; [exact Hsub|].
  exact (proj1 (Unsubscribe_without_subscription Demo.env (Demo.post "") Demo.alice
                  Demo.state_fresh 1 Hacc Hsub)).
Defined.



(** C8: a@b.com cancels its subscription: the object behind the
    account's subscription pointer now holds the canceled record. *)
Lemma Unsubscribe_keeps_canceled_record_witness :
  fst (run Demo.env (Unsubscribe_Handle Demo.env (Demo.post "") (Some Demo.alice))
         Demo.state0) = Done None
  /\ sub_Status
       (read_sub
          (heap (state Demo.env
                   (snd (run Demo.env
                           (Unsubscribe_Handle Demo.env (Demo.post "") (Some Demo.alice))
                           Demo.state0)))) 1) = "canceled"
  /\ Subscription Demo.env
       (heap (state Demo.env
                (snd (run Demo.env
                        (Unsubscribe_Handle Demo.env (Demo.post "") (Some Demo.alice))
                        Demo.state0)))) 1 = Some 1.
Proof.
  assert (Hok : fst (run Demo.env
                       (Unsubscribe_Handle Demo.env (Demo.post "") (Some Demo.alice))
                       Demo.state0) = Done None) by (vm_compute; reflexivity).
  split; [exact Hok|].
  pose proof (Unsubscribe_keeps_canceled_record Demo.env _ _ _ Hok) as H.
  cbn zeta in H.
  destruct H as (tok & acc & sub & s_ & Ha & Hacc & Hsub & Hcancel
                 & _ & Hread & _ & _ & Hkeep & _).
  injection Ha as <-.
  vm_compute in Hacc. injection Hacc as <-.
  vm_compute in Hsub. injection Hsub as <-.
  vm_compute in Hcancel. injection Hcancel as <-.
  split.
  - rewrite Hread. vm_compute. reflexivity.
  - rewrite Hkeep; [vm_compute; reflexivity|]. intros h l v. reflexivity.
Defined.

(** C9: an invoice event has no case in the handler. *)
Lemma StripeHook_unrecognized_event_witness :
  req_Body (Demo.hook "invoice.created") = inr "invoice.created"
  /\ Unmarshal_Event Demo.env "invoice.created" = inr Demo.invoice_created
  /\ (ev_Type Demo.invoice_created ∉ recognized_types)
  /\ run Demo.env (StripeHook_Handle Demo.env (Demo.hook "invoice.created") None)
       Demo.state0 = (Done None, mkWorld Demo.env Demo.state0 []).
Proof.
  assert (Hty : ev_Type Demo.invoice_created ∉ recognized_types).
  { unfold recognized_types. rewrite !not_elem_of_cons.
    repeat split; try discriminate. apply not_elem_of_nil. }
  split; [reflexivity|]. split; [reflexivity|]. split; [exact Hty|].
  exact (StripeHook_unrecognized_event Demo.env (Demo.hook "invoice.created") None
           Demo.state0 "invoice.created" Demo.invoice_created eq_refl eq_refl Hty).
Defined.

(** The two events of the specification's guarded-overwrite test: the
    account of a@b.com holds cus_1 (at location 1); the event for cus_2
    leaves the field alone, the event for cus_1 assigns the incoming
    customer (at location 2). *)
Example guarded_overwrite :
  acc_Customer
    (read_acc
       (heap (state Demo.env
                (snd (run Demo.env
                        (StripeHook_Handle Demo.env
                           (Demo.hook "customer.updated cus_2") None)
                        Demo.state0)))) 1) = Some 1
  /\ acc_Customer
       (read_acc
          (heap (state Demo.env
                   (snd (run Demo.env
                           (StripeHook_Handle Demo.env
                              (Demo.hook "customer.updated cus_1") None)
                           Demo.state0)))) 1) = Some 2.
Proof. split; vm_compute; reflexivity. Qed.

(** A subscription event fetches the customer from the provider and goes
    through the same guard. *)
Example subscription_event_fetches_customer :
  trace Demo.env
    (snd (run Demo.env
            (StripeHook_Handle Demo.env
               (Demo.hook "customer.subscription.deleted cus_1") None)
            Demo.state0))
  = [ CallCustomerGet "cus_1" (inr 2);
      CallAccountFromEmail "a@b.com" true (inr 1);
      CallStoragePut 1 None;
      LogPrintf "POST / - stripe_hook - a@b.com:customer.subscription.deleted" ].
Proof. vm_compute. reflexivity. Qed.

(** A declined card and an unreachable provider in the same call of
    Subscribe: the first comes back in the wrapper, the second as it is. *)
Example declined_and_unreachable :
  fst (run Demo.env
         (Subscribe_Handle Demo.env (Demo.post "tok_chargeDeclined") (Some Demo.alice))
         Demo.state0) = Done (Some (StripeError Demo.declined))
  /\ fst (run Demo.env
            (Subscribe_Handle Demo.env (Demo.post "tok_unreachable") (Some Demo.alice))
            Demo.state0) = Done (Some (stripe_Err Demo.unreachable)).
Proof. split; vm_compute; reflexivity. Qed.

(** The label follows the state before the call: a@b.com has no active
    subscription when it subscribes and has one afterwards. *)
Example label_is_fixed_before_the_update :
  HasActiveSubscription Demo.env
    (heap (snd (AccountFromEmail Demo.env "a@b.com" true Demo.state0))) 1 = false
  /\ HasActiveSubscription Demo.env
       (heap (state Demo.env
                (snd (run Demo.env
                        (Subscribe_Handle Demo.env (Demo.post "tok_visa")
                           (Some Demo.alice)) Demo.state0)))) 1 = true
  /\ HttpRedirect "/dashboard/?action=subscribed" StatusFound
     ∈ trace Demo.env
         (snd (run Demo.env
                 (Subscribe_Handle Demo.env (Demo.post "tok_visa") (Some Demo.alice))
                 Demo.state0)).
Proof.
  split; [vm_compute; reflexivity|]. split; [vm_compute; reflexivity|].
  vm_compute. by repeat constructor.
Qed.

End Runs.

(** * Further properties of the billing handlers *)

Ltac walk :=
  repeat (case_match; cbn [state trace heap store prov fst snd app] in *;
          simplify_eq; cbn [state trace heap store prov fst snd app] in * ).

Section MoreProperties.
Context (E : Env).

Implicit Types (r : Request) (a : option AuthToken) (s : St E).

(** *** wrapCardError *)

(** X1: Wrapping twice is wrapping once, and what comes out is never a bare
    card error of the client. *)
Theorem wrapCardError_idempotent (e : error) :
  wrapCardError (wrapCardError e) = wrapCardError e
  /\ is_card_error (wrapCardError e) = false.
Proof.
  destruct e as [| | se | |]; cbn; try done.
  destruct (decide (err_Type se = ErrorTypeCard)) as [H|H]; cbn; [done|].
  rewrite decide_False by done. by rewrite bool_decide_eq_false_2.
Qed.

(** *** Account resolution fails *)

(** X2: When the account cannot be resolved, Subscribe (given a token) and
    Unsubscribe return the error of the resolution as it is, and the
    resolution is their only call. *)
Theorem resolution_error_is_returned r tok s err :
  let email := pc_Email (tok_account tok) in
  let resolved := AccountFromEmail E email true s in
  fst resolved = inl err ->
  run E (Unsubscribe_Handle E r (Some tok)) s =
    (Done (Some err), mkWorld E (snd resolved) [CallAccountFromEmail email true (inl err)])
  /\ (PostFormValue r "stripeToken" <> "" ->
      run E (Subscribe_Handle E r (Some tok)) s =
        (Done (Some err),
         mkWorld E (snd resolved) [CallAccountFromEmail email true (inl err)])).
Proof.
  intros email resolved Herr. subst email resolved. split.
  - unfold_handler. by rewrite Herr.
  - intros Htok. unfold run, Subscribe_Handle. cbn zeta.
    rewrite decide_False by done. unfold_handler. by rewrite Herr.
Qed.

(** *** Responses *)

(** X3: An invocation of Subscribe or Unsubscribe that returns an error has
    sent no redirect and no tracking event. *)
Theorem error_return_sends_no_response r a s err :
  (fst (run E (Subscribe_Handle E r a) s) = Done (Some err) ->
   Forall (fun ev => is_response ev = false)
          (trace E (snd (run E (Subscribe_Handle E r a) s))))
  /\ (fst (run E (Unsubscribe_Handle E r a) s) = Done (Some err) ->
      Forall (fun ev => is_response ev = false)
             (trace E (snd (run E (Unsubscribe_Handle E r a) s)))).
Proof.
  split.
  - unfold run, Subscribe_Handle. destruct a as [tok|]; [|by constructor].
    cbn zeta. case_decide; [by constructor|]. unfold_handler.
    repeat (case_match; cbn [state trace heap store prov fst snd app] in * );
      intros; simplify_eq; by repeat constructor.
  - unfold run, Unsubscribe_Handle. destruct a as [tok|]; [|done].
    unfold_handler.
    repeat (case_match; cbn [state trace heap store prov fst snd app] in * );
      intros; simplify_eq; by repeat constructor.
Qed.

(** *** Subscribe: the order of the calls *)

(** X4: The storage's put is called at most once in Subscribe, for the
    resolved account, and only after the payment source was attached,
    the subscription ensured and its trial ended (an update with
    TrialEndNow set), each without error; no call follows it. *)
Theorem Subscribe_put_after_provider_calls r a s acc res :
  let out := run E (Subscribe_Handle E r a) s in
  CallStoragePut acc res ∈ trace E (snd out) ->
  exists (tok : AuthToken) (sub s_ : loc) (id : string) (rest : list Event),
    a = Some tok
    /\ trace E (snd out) =
       ([ CallAccountFromEmail (pc_Email (tok_account tok)) true (inr acc);
          CallSetPaymentSource acc (PostFormValue r "stripeToken") None;
          CallEnsureSubscription acc (inr sub);
          CallSubUpdate id {| TrialEndNow := true |} (inr s_);
          CallStoragePut acc res ] ++ rest)%list
    /\ Forall (fun ev => is_provider_call ev = false /\ is_store_put ev = false) rest.
Proof.
  intros out Hput. subst out.
  unfold run, Subscribe_Handle in *. destruct a as [tok|]; [|set_solver].
  cbn zeta in *. case_decide; [set_solver|]. exists tok.
  unfold_handler.
  repeat (case_match; cbn [state trace heap store prov fst snd app] in * );
    repeat match goal with
      | H : _ ∈ _ :: _ |- _ => apply elem_of_cons in H; destruct H as [?|H]
      | H : _ ∈ [] |- _ => by apply elem_of_nil in H
      end;
    simplify_eq;
    (do 4 eexists; split; [reflexivity|]; split; [reflexivity|];
     by repeat constructor).
Qed.

(** *** Subscribe: from the update on *)

(** Subscribe, run symbolically up to the put: with a token, a resolved
    account, an attached payment source, an ensured subscription [sub]
    and an update that answered with [s_], what is left is decided by
    the put and by the plan pointer of the overwritten subscription. *)
Lemma Subscribe_at_put r tok s (acc sub s_ : loc) :
  let token := PostFormValue r "stripeToken" in
  let email := pc_Email (tok_account tok) in
  let resolved := AccountFromEmail E email true s in
  let s1 := snd resolved in
  let attached := SetPaymentSource E acc token (heap s1, prov s1) in
  let s2 := mkState (fst (snd attached)) (store s1) (snd (snd attached)) in
  let ensured := EnsureSubscription E acc s2 in
  let s3 := snd ensured in
  let id := sub_ID (read_sub (heap s3) sub) in
  let updated := sub_Update E id {| TrialEndNow := true |} (heap s3, prov s3) in
  let h4 := write_sub (fst (snd updated)) sub (read_sub (fst (snd updated)) s_) in
  let put := Storage_Put E acc h4 (store s3) in
  let s5 := mkState h4 (snd put) (snd (snd updated)) in
  let new := negb (HasActiveSubscription E (heap s1) acc) in
  let calls := [ CallAccountFromEmail email true (inr acc);
                 CallSetPaymentSource acc token None;
                 CallEnsureSubscription acc (inr sub);
                 CallSubUpdate id {| TrialEndNow := true |} (inr s_);
                 CallStoragePut acc (fst put) ] in
  let sent := [ HttpRedirect ("/dashboard/?action="
                              +:+ (if new then "subscribed" else "payment-updated"))
                             StatusFound;
                LogPrintf (FormatRequest E r +:+ " - subcribe - "
                           +:+ acc_Email (read_acc h4 acc) +:+ nl) ] in
  token <> "" ->
  fst resolved = inr acc ->
  fst attached = None ->
  fst ensured = inr sub ->
  fst updated = inr s_ ->
  run E (Subscribe_Handle E r (Some tok)) s =
  match fst put with
  | Some err => (Done (Some err), mkWorld E s5 calls)
  | None =>
      match sub_Plan (read_sub h4 sub) with
      | None => (Panic, mkWorld E s5 (calls ++ sent))
      | Some plan =>
          (Done None,
           mkWorld E s5
             (calls ++ sent ++
              [ GoTrack {| te_TrackingID := "";
                           te_Name := if new then "Buy Subscription"
                                      else "Update Payment Method";
                           te_Properties :=
                             [("Plan", plan_ID plan);
                              ("Source", sourceFromRef E (Query_Get r "ref"))] |} ]))
      end
  end.
Proof.
  intros token email resolved s1 attached s2 ensured s3 id updated h4 put s5 new
         calls sent Htok Hacc Hatt Hens Hupd.
  subst token email resolved s1 attached s2 ensured s3 id updated h4 put s5 new
        calls sent.
  unfold run, Subscribe_Handle. cbn zeta. rewrite decide_False by done.
  unfold_handler. rewrite Hacc. cbn [state heap store prov].
  rewrite Hatt. cbn [state heap store prov]. rewrite Hens.
  cbn [state heap store prov]. rewrite Hupd. cbn [state heap store prov].
  destruct (fst (Storage_Put E _ _ _)) as [err|]; [reflexivity|].
  cbn [state heap store prov trace].
  destruct (sub_Plan _) as [plan|]; reflexivity.
Qed.

(** X5: Once the update has answered, the subscription object is overwritten
    with the answer before the put, whatever the put then does: the
    memory at the end is the memory the update left with that one object
    replaced, the account object is untouched, and the put is handed
    this memory. *)
Theorem Subscribe_overwrites_subscription r tok s (acc sub s_ : loc) :
  let token := PostFormValue r "stripeToken" in
  let resolved := AccountFromEmail E (pc_Email (tok_account tok)) true s in
  let s1 := snd resolved in
  let attached := SetPaymentSource E acc token (heap s1, prov s1) in
  let s2 := mkState (fst (snd attached)) (store s1) (snd (snd attached)) in
  let ensured := EnsureSubscription E acc s2 in
  let s3 := snd ensured in
  let updated := sub_Update E (sub_ID (read_sub (heap s3) sub)) {| TrialEndNow := true |}
                   (heap s3, prov s3) in
  let h3 := fst (snd updated) in
  let final := state E (snd (run E (Subscribe_Handle E r (Some tok)) s)) in
  token <> "" ->
  fst resolved = inr acc ->
  fst attached = None ->
  fst ensured = inr sub ->
  fst updated = inr s_ ->
  heap final = write_sub h3 sub (read_sub h3 s_)
  /\ read_sub (heap final) sub = read_sub h3 s_
  /\ read_acc (heap final) acc = read_acc h3 acc
  /\ h_cus (heap final) = h_cus h3
  /\ store final = snd (Storage_Put E acc (heap final) (store s3)).
Proof.
  intros token resolved s1 attached s2 ensured s3 updated h3 final
         Htok Hacc Hatt Hens Hupd.
  subst final.
  rewrite (Subscribe_at_put r tok s acc sub s_ Htok Hacc Hatt Hens Hupd).
  fold token resolved s1 attached s2 ensured s3 updated h3.
  assert (Hread : read_sub (write_sub h3 sub (read_sub h3 s_)) sub = read_sub h3 s_).
  { unfold read_sub, write_sub. cbn. by rewrite lookup_total_insert_eq. }
  destruct (fst (Storage_Put E _ _ _)); [done|].
  destruct (sub_Plan _); done.
Qed.

(** X6: When the put fails after all of this, Subscribe returns the put's
    error and sends nothing, although the provider has been updated and
    the subscription object in memory overwritten. *)
Theorem Subscribe_put_failure r tok s (acc sub s_ : loc) err :
  let token := PostFormValue r "stripeToken" in
  let resolved := AccountFromEmail E (pc_Email (tok_account tok)) true s in
  let s1 := snd resolved in
  let attached := SetPaymentSource E acc token (heap s1, prov s1) in
  let s2 := mkState (fst (snd attached)) (store s1) (snd (snd attached)) in
  let ensured := EnsureSubscription E acc s2 in
  let s3 := snd ensured in
  let updated := sub_Update E (sub_ID (read_sub (heap s3) sub)) {| TrialEndNow := true |}
                   (heap s3, prov s3) in
  let h4 := write_sub (fst (snd updated)) sub (read_sub (fst (snd updated)) s_) in
  let out := run E (Subscribe_Handle E r (Some tok)) s in
  token <> "" ->
  fst resolved = inr acc ->
  fst attached = None ->
  fst ensured = inr sub ->
  fst updated = inr s_ ->
  fst (Storage_Put E acc h4 (store s3)) = Some err ->
  fst out = Done (Some err)
  /\ heap (state E (snd out)) = h4
  /\ prov (state E (snd out)) = snd (snd updated)
  /\ Forall (fun ev => is_response ev = false) (trace E (snd out)).
Proof.
  intros token resolved s1 attached s2 ensured s3 updated h4 out
         Htok Hacc Hatt Hens Hupd Hput.
  subst out.
  rewrite (Subscribe_at_put r tok s acc sub s_ Htok Hacc Hatt Hens Hupd).
  fold token resolved s1 attached s2 ensured s3 updated h4.
  rewrite Hput. cbn. repeat split. by repeat constructor.
Qed.

(** X7: When the put succeeds and the overwritten subscription has a nil
    plan, Subscribe panics on [s.Plan.ID]: the account is stored and the
    redirect written by then, and no tracking event is sent. *)
Theorem Subscribe_nil_Plan_panics r tok s (acc sub s_ : loc) :
  let token := PostFormValue r "stripeToken" in
  let resolved := AccountFromEmail E (pc_Email (tok_account tok)) true s in
  let s1 := snd resolved in
  let attached := SetPaymentSource E acc token (heap s1, prov s1) in
  let s2 := mkState (fst (snd attached)) (store s1) (snd (snd attached)) in
  let ensured := EnsureSubscription E acc s2 in
  let s3 := snd ensured in
  let updated := sub_Update E (sub_ID (read_sub (heap s3) sub)) {| TrialEndNow := true |}
                   (heap s3, prov s3) in
  let h3 := fst (snd updated) in
  let h4 := write_sub h3 sub (read_sub h3 s_) in
  let out := run E (Subscribe_Handle E r (Some tok)) s in
  token <> "" ->
  fst resolved = inr acc ->
  fst attached = None ->
  fst ensured = inr sub ->
  fst updated = inr s_ ->
  fst (Storage_Put E acc h4 (store s3)) = None ->
  sub_Plan (read_sub h3 s_) = None ->
  fst out = Panic
  /\ CallStoragePut acc None ∈ trace E (snd out)
  /\ (exists url, HttpRedirect url StatusFound ∈ trace E (snd out))
  /\ Forall (fun ev => match ev with GoTrack _ => False | _ => True end)
            (trace E (snd out)).
Proof.
  intros token resolved s1 attached s2 ensured s3 updated h3 h4 out
         Htok Hacc Hatt Hens Hupd Hput Hplan.
  subst out.
  rewrite (Subscribe_at_put r tok s acc sub s_ Htok Hacc Hatt Hens Hupd).
  fold token resolved s1 attached s2 ensured s3 updated h3 h4.
  rewrite Hput.
  assert (Hread : read_sub h4 sub = read_sub h3 s_).
  { unfold h4, read_sub, write_sub. cbn. by rewrite lookup_total_insert_eq. }
  rewrite Hread, Hplan. cbn [fst snd trace app].
  split; [done|]. split; [set_solver|].
  split; [eexists; do 5 apply list_elem_of_further; apply list_elem_of_here|].
  by repeat constructor.
Qed.

(** *** Unsubscribe: failures after the account is resolved *)

(** X8: When the provider refuses to cancel, Unsubscribe returns the
    provider's error as it is -- a card error is not wrapped here --
    without overwriting the subscription object and without a put. *)
Theorem Unsubscribe_cancel_failure r tok s acc sub err :
  let email := pc_Email (tok_account tok) in
  let resolved := AccountFromEmail E email true s in
  let s1 := snd resolved in
  let id := sub_ID (read_sub (heap s1) sub) in
  let canceled := sub_Cancel E id (heap s1, prov s1) in
  fst resolved = inr acc ->
  Subscription E (heap s1) acc = Some sub ->
  fst canceled = inl err ->
  run E (Unsubscribe_Handle E r (Some tok)) s =
  (Done (Some err),
   mkWorld E (mkState (fst (snd canceled)) (store s1) (snd (snd canceled)))
     [ CallAccountFromEmail email true (inr acc); CallSubCancel id (inl err) ]).
Proof.
  intros email resolved s1 id canceled Hacc Hsub Hcancel.
  subst email resolved s1 id canceled.
  unfold_handler. rewrite Hacc. cbn [state heap store prov].
  rewrite Hsub. cbn [state heap store prov]. by rewrite Hcancel.
Qed.

(** X9: When the put fails after a cancellation, Unsubscribe returns the
    put's error and sends nothing; the subscription is canceled at the
    provider and the object in memory holds the canceled record. *)
Theorem Unsubscribe_put_failure r tok s (acc sub s_ : loc) err :
  let email := pc_Email (tok_account tok) in
  let resolved := AccountFromEmail E email true s in
  let s1 := snd resolved in
  let id := sub_ID (read_sub (heap s1) sub) in
  let canceled := sub_Cancel E id (heap s1, prov s1) in
  let h2 := fst (snd canceled) in
  let h3 := write_sub h2 sub (read_sub h2 s_) in
  let put := Storage_Put E acc h3 (store s1) in
  fst resolved = inr acc ->
  Subscription E (heap s1) acc = Some sub ->
  fst canceled = inr s_ ->
  fst put = Some err ->
  run E (Unsubscribe_Handle E r (Some tok)) s =
  (Done (Some err),
   mkWorld E (mkState h3 (snd put) (snd (snd canceled)))
     [ CallAccountFromEmail email true (inr acc); CallSubCancel id (inr s_);
       CallStoragePut acc (Some err) ]).
Proof.
  intros email resolved s1 id canceled h2 h3 put Hacc Hsub Hcancel Hput.
  subst email resolved s1 id canceled h2 h3 put.
  unfold_handler. rewrite Hacc. cbn [state heap store prov].
  rewrite Hsub. cbn [state heap store prov]. rewrite Hcancel.
  cbn [state heap store prov]. by rewrite Hput.
Qed.

(** *** The webhook: before the guard *)

Lemma subscription_type_is_no_customer_type (t : string) :
  t ∈ subscription_types -> ~ (t = "customer.created" \/ t = "customer.updated").
Proof.
  unfold subscription_types. rewrite !elem_of_cons, elem_of_nil.
  intros [->|[->|[->|[]]]] [?|?]; discriminate.
Qed.

(** X10: A body that cannot be read, or that does not decode to an event,
    makes the webhook handler return that error with nothing called. *)
Theorem StripeHook_bad_body r a s err :
  (req_Body r = inl err
   \/ exists body, req_Body r = inr body /\ Unmarshal_Event E body = inl err) ->
  run E (StripeHook_Handle E r a) s = (Done (Some err), mkWorld E s []).
Proof.
  intros [Hbody|(body & Hbody & Hev)]; unfold run, StripeHook_Handle;
    rewrite Hbody; [done|]. by rewrite Hev.
Qed.

(** X11: An event of a type the switch has a case for, but without data,
    makes the handler panic on [event.Data] with nothing called. *)
Theorem StripeHook_nil_Data_panics r a s body event :
  req_Body r = inr body ->
  Unmarshal_Event E body = inr event ->
  ev_Type event ∈ recognized_types ->
  ev_Data event = None ->
  run E (StripeHook_Handle E r a) s = (Panic, mkWorld E s []).
Proof.
  intros Hbody Hev Hty Hdata. unfold run, StripeHook_Handle, StripeHook_customer.
  rewrite Hbody, Hev. cbn zeta. unfold recognized_types in Hty.
  rewrite !elem_of_cons, elem_of_nil in Hty.
  unfold GetObjValue. unfold_handler. rewrite Hdata.
  repeat case_decide; try reflexivity. tauto.
Qed.

(** X12: When the customer of a recognized event cannot be had -- the payload
    of a customer event does not decode, or the provider does not
    deliver the customer of a subscription event -- the handler returns
    that error: no account is resolved and nothing is put. *)
Theorem StripeHook_customer_unavailable r a s body event d err :
  req_Body r = inr body ->
  Unmarshal_Event E body = inr event ->
  ev_Data event = Some d ->
  (ev_Type event ∈ customer_types ->
   let decoded := Unmarshal_Customer E (data_Raw d) (heap s) in
   fst decoded = inl err ->
   run E (StripeHook_Handle E r a) s =
   (Done (Some err), mkWorld E (mkState (snd decoded) (store s) (prov s)) []))
  /\ (ev_Type event ∈ subscription_types ->
      let id := default "" (data_Obj d !! "customer") in
      let fetched := customer_Get E id (heap s, prov s) in
      fst fetched = inl err ->
      run E (StripeHook_Handle E r a) s =
      (Done (Some err),
       mkWorld E (mkState (fst (snd fetched)) (store s) (snd (snd fetched)))
         [CallCustomerGet id (inl err)])).
Proof.
  intros Hbody Hev Hdata. split.
  - intros Hty decoded Herr. subst decoded.
    unfold run, StripeHook_Handle, StripeHook_customer.
    rewrite Hbody, Hev. cbn zeta.
    rewrite decide_True
      by (unfold customer_types in Hty; rewrite !elem_of_cons, elem_of_nil in Hty; tauto).
    unfold GetObjValue. unfold_handler. rewrite Hdata. cbn [state heap store prov]. by rewrite Herr.
  - intros Hty id fetched Herr. subst id fetched.
    unfold run, StripeHook_Handle, StripeHook_customer.
    rewrite Hbody, Hev. cbn zeta.
    rewrite decide_False by (by apply subscription_type_is_no_customer_type).
    rewrite decide_True
      by (unfold subscription_types in Hty;
          rewrite !elem_of_cons, elem_of_nil in Hty; tauto).
    unfold GetObjValue. unfold_handler. rewrite Hdata. cbn [state heap store prov]. by rewrite Herr.
Qed.

(** X13: Where the customer comes from: for a customer event the provider is
    never asked, the payload is the customer; for a subscription event
    the first call of the handler is the fetch of the customer named by
    the payload's "customer" value (the empty string if there is none),
    and it is the only fetch. *)
Theorem StripeHook_source_of_customer r a s body event :
  req_Body r = inr body ->
  Unmarshal_Event E body = inr event ->
  let tr := trace E (snd (run E (StripeHook_Handle E r a) s)) in
  (ev_Type event ∈ customer_types -> Forall (fun ev => is_customer_Get ev = false) tr)
  /\ (ev_Type event ∈ subscription_types ->
      forall d, ev_Data event = Some d ->
      exists res rest,
        tr = CallCustomerGet (default "" (data_Obj d !! "customer")) res :: rest
        /\ Forall (fun ev => is_customer_Get ev = false) rest).
Proof.
  intros Hbody Hev tr. subst tr. split.
  - intros Hty. unfold run, StripeHook_Handle, StripeHook_customer.
    rewrite Hbody, Hev. cbn zeta.
    rewrite decide_True
      by (unfold customer_types in Hty; rewrite !elem_of_cons, elem_of_nil in Hty; tauto).
    unfold_handler. walk; by repeat constructor.
  - intros Hty d Hdata. unfold run, StripeHook_Handle, StripeHook_customer.
    rewrite Hbody, Hev. cbn zeta.
    rewrite decide_False by (by apply subscription_type_is_no_customer_type).
    rewrite decide_True
      by (unfold subscription_types in Hty;
          rewrite !elem_of_cons, elem_of_nil in Hty; tauto).
    unfold GetObjValue. unfold_handler. rewrite Hdata.
    cbn [state trace heap store prov fst snd app].
    walk; (do 2 eexists; split; [reflexivity|]; by repeat constructor).
Qed.

(** X14: Whatever the request, the webhook handler only ever fetches a
    customer, resolves an account (always with create set), puts an
    account and writes a log line: it attaches, ensures, updates and
    cancels nothing, and sends no redirect and no tracking event. *)
Theorem StripeHook_only_calls r a s :
  Forall (fun ev => is_hook_entry ev = true)
         (trace E (snd (run E (StripeHook_Handle E r a) s))).
Proof.
  unfold_handler. unfold_handler. walk; by repeat constructor.
Qed.

(** *** The webhook: what the guard leaves alone *)

(** X15: At the guard with an account that has a customer, whether or not the
    field is overwritten: the account keeps its email and tracking
    identifier, every other account object, every customer object and
    every subscription object is as the account resolution left it, and
    so is the provider. *)
Theorem StripeHook_frame r a s event (c acc : loc) s2 (old : loc) :
  hook_reaches_guard E r s event c acc s2 ->
  acc_Customer (read_acc (heap s2) acc) = Some old ->
  let final := state E (snd (run E (StripeHook_Handle E r a) s)) in
  acc_Email (read_acc (heap final) acc) = acc_Email (read_acc (heap s2) acc)
  /\ acc_TrackingID (read_acc (heap final) acc) = acc_TrackingID (read_acc (heap s2) acc)
  /\ (forall l, l <> acc -> read_acc (heap final) l = read_acc (heap s2) l)
  /\ h_cus (heap final) = h_cus (heap s2)
  /\ h_sub (heap final) = h_sub (heap s2)
  /\ prov final = prov s2.
Proof.
  intros Hreach Hold final. subst final.
  rewrite (StripeHook_at_guard E r a s event c acc s2 old Hreach Hold).
  cbn [snd state heap prov]. case_decide as Hid; [|done].
  unfold read_acc, write_acc. cbn. rewrite lookup_total_insert_eq. cbn.
  repeat split; try done.
  intros l Hl. by rewrite lookup_total_insert_ne.
Qed.

End MoreProperties.

(** * Properties of Dashboard and Track *)

Ltac unfold_view :=
  unfold vrun, Dashboard_Handle, Track_Handle, do_Execute, do_Track in *;
  unfold lift, vbind, vret, vemit, vpanic, vget_heap in *;
  unfold_handler;
  cbn [vstate vtrace state trace heap store prov fst snd app fmap list_fmap] in *.

Ltac vwalk :=
  repeat (case_match;
          cbn [vstate vtrace state trace heap store prov fst snd app fmap list_fmap] in *;
          simplify_eq;
          cbn [vstate vtrace state trace heap store prov fst snd app fmap list_fmap] in * ).

Section ViewProperties.
Context (E : Env) (V : ViewEnv E).

Implicit Types (r : Request) (auth a : option AuthToken) (s : St E).

(** *** Dashboard *)

(** X17: Whatever the request, the dashboard handler only resolves the
    account (with create set), ensures the subscription, executes the
    template, writes the page and hands an event to the tracker: it
    makes no put of its own, attaches, updates and cancels nothing, and
    never redirects. *)
Theorem Dashboard_only_calls r auth s :
  Forall (fun ev => is_dashboard_entry ev = true)
         (vtrace E (snd (vrun E (Dashboard_Handle E V r auth) s))).
Proof.
  unfold_view. destruct auth as [tok|]; [|by constructor].
  cbn [vstate vtrace state trace heap store prov fst snd app fmap list_fmap].
  vwalk; by repeat constructor.
Qed.

(** X18: What ends the dashboard handler before the template: a nil auth
    token and a nil customer after the subscription is ensured make it
    panic, an error of the account resolution or of EnsureSubscription
    is returned as it is; in each case nothing has been rendered. *)
Theorem Dashboard_stops_before_rendering r tok s (subAcc : loc) err :
  let email := pc_Email (tok_account tok) in
  let resolved := AccountFromEmail E email true s in
  let ensured := EnsureSubscription E subAcc (snd resolved) in
  vrun E (Dashboard_Handle E V r None) s = (Panic, mkVWorld E s [])
  /\ (fst resolved = inl err ->
      vrun E (Dashboard_Handle E V r (Some tok)) s =
      (Done (Some err),
       mkVWorld E (snd resolved) [inl (CallAccountFromEmail email true (inl err))]))
  /\ (fst resolved = inr subAcc -> fst ensured = inl err ->
      vrun E (Dashboard_Handle E V r (Some tok)) s =
      (Done (Some err),
       mkVWorld E (snd ensured)
         [ inl (CallAccountFromEmail email true (inr subAcc));
           inl (CallEnsureSubscription subAcc (inl err)) ]))
  /\ (forall sub : loc,
        fst resolved = inr subAcc -> fst ensured = inr sub ->
        acc_Customer (read_acc (heap (snd ensured)) subAcc) = None ->
        vrun E (Dashboard_Handle E V r (Some tok)) s =
        (Panic,
         mkVWorld E (snd ensured)
           [ inl (CallAccountFromEmail email true (inr subAcc));
             inl (CallEnsureSubscription subAcc (inr sub)) ])).
Proof.
  intros email resolved ensured. subst email resolved ensured.
  split; [reflexivity|]. split; [|split].
  - intros Hacc. unfold_view. by rewrite Hacc.
  - intros Hacc Hens. unfold_view. rewrite Hacc.
    cbn [vstate vtrace state trace heap store prov fst snd app fmap list_fmap].
    by rewrite Hens.
  - intros sub Hacc Hens Hnil. unfold_view. rewrite Hacc.
    cbn [vstate vtrace state trace heap store prov fst snd app fmap list_fmap].
    rewrite Hens.
    cbn [vstate vtrace state trace heap store prov fst snd app fmap list_fmap].
    by rewrite Hnil.
Qed.

(** X19: The page and the tracking event go out only when the handler
    returns nil: otherwise nothing is written and nothing tracked; when
    it returns nil, the run ends with the template's output written once
    and one "Open Dashboard" event carrying the tid of the query. *)
Theorem Dashboard_output_only_on_success r auth s :
  let out := vrun E (Dashboard_Handle E V r auth) s in
  (fst out <> Done None ->
   Forall (fun ev => is_view_output ev = false) (vtrace E (snd out)))
  /\ (fst out = Done None ->
      exists (calls : list (Event + ViewEvent)) params b ev,
        vtrace E (snd out) =
          (calls ++ [ inr (CallExecute params (inr b)); inr (BodyWrite b);
                      inr (GoTrackI ev) ])%list
        /\ Forall (fun ev => is_view_output ev = false) calls
        /\ ti_Name ev = "Open Dashboard"
        /\ ti_TrackingID ev = Query_Get r "tid").
Proof.
  intros out. subst out. unfold_view. destruct auth as [tok|].
  2:{ split; [by constructor|done]. }
  cbn [vstate vtrace state trace heap store prov fst snd app fmap list_fmap].
  vwalk;
    (split;
     [ intros Hne; try done; try by repeat constructor
     | intros Hok; try done;
       try (eexists [_; _], _, _, _; split; [reflexivity|];
            split; [by repeat constructor|done]) ]).
Qed.

(** The handler's own keys do not touch the action of the parameters. *)
Lemma Dashboard_params_action r auth accMap :
  index (Dashboard_params E V r auth accMap) "action"
  = index (DashboardParams V r auth) "action".
Proof.
  unfold index, Dashboard_params. cbn zeta. by rewrite !lookup_insert_ne.
Qed.


(** X21: The reference the template is given: the one of the query if there
    is one; otherwise "action: " followed by the action of the dashboard
    parameters, unless that action is the empty string, which leaves the
    reference empty. An action that is no string, a missing one
    included, is not the empty string and is printed as fmt prints it.
    The tracking event carries the source of this reference and the
    action. *)
Theorem Dashboard_reference r auth s params res :
  let tr := vtrace E (snd (vrun E (Dashboard_Handle E V r auth) s)) in
  let action := index (DashboardParams V r auth) "action" in
  inr (CallExecute params res) ∈ tr ->
  (Query_Get r "ref" <> "" -> params !! "ref" = Some (VString (Query_Get r "ref")))
  /\ (Query_Get r "ref" = "" -> action = VString "" ->
      params !! "ref" = Some (VString ""))
  /\ (Query_Get r "ref" = "" -> forall act, act <> "" -> action = VString act ->
      params !! "ref" = Some (VString ("action: " +:+ act)))
  /\ (Query_Get r "ref" = "" -> (forall act, action <> VString act) ->
      params !! "ref" = Some (VString ("action: " +:+ Sprintf_other V action)))
  /\ (forall ev, inr (GoTrackI ev) ∈ tr ->
      exists ref, params !! "ref" = Some (VString ref)
                  /\ ti_Properties ev !! "Source" = Some (VString (sourceFromRef E ref))
                  /\ ti_Properties ev !! "Action" = Some action).
Proof.
  intros tr action Hin. subst tr action.
  assert (Href : forall accMap,
    let action := index (DashboardParams V r auth) "action" in
    let ref := Dashboard_ref E V r (Dashboard_params E V r auth accMap) in
    (Query_Get r "ref" <> "" -> ref = Query_Get r "ref")
    /\ (Query_Get r "ref" = "" -> action = VString "" -> ref = "")
    /\ (Query_Get r "ref" = "" -> forall act, act <> "" -> action = VString act ->
        ref = "action: " +:+ act)
    /\ (Query_Get r "ref" = "" -> (forall act, action <> VString act) ->
        ref = "action: " +:+ Sprintf_other V action)).
  { intros accMap action ref. subst action ref. unfold Dashboard_ref. cbn zeta.
    rewrite Dashboard_params_action.
    split; [|split; [|split]].
    - intros Hq. by rewrite bool_decide_eq_false_2.
    - intros Hq Hact. rewrite Hq, Hact. reflexivity.
    - intros Hq act Hne Hact. rewrite Hq, Hact. unfold not_empty_string.
      rewrite (bool_decide_eq_false_2 (act = "")) by done. reflexivity.
    - intros Hq Hact. rewrite Hq.
      destruct (index (DashboardParams V r auth) "action") as [| | |act| | | | |] eqn:Hv;
        try reflexivity.
      by destruct (Hact act). }
  unfold_view. destruct auth as [tok|]; [|by apply elem_of_nil in Hin].
  cbn [vstate vtrace state trace heap store prov fst snd app fmap list_fmap] in *.
  vwalk;
    repeat match goal with
      | H : _ ∈ _ :: _ |- _ => apply elem_of_cons in H; destruct H as [?|H]
      | H : _ ∈ [] |- _ => by apply elem_of_nil in H
      end;
    simplify_eq;
    match goal with
    | |- context [Dashboard_ref E V r (Dashboard_params E V r ?au ?m)] =>
        destruct (Href m) as (R1 & R2 & R3 & R4)
    end;
    rewrite lookup_insert_eq;
    (split; [intros; f_equal; f_equal; auto|]);
    (split; [intros; f_equal; f_equal; auto|]);
    (split; [intros; f_equal; f_equal; eauto|]);
    (split; [intros; f_equal; f_equal; auto|]);
    intros ev Hev;
    repeat match goal with
      | H : _ ∈ _ :: _ |- _ => apply elem_of_cons in H; destruct H as [?|H]
      | H : _ ∈ [] |- _ => by apply elem_of_nil in H
      end;
    simplify_eq;
    (eexists; split; [reflexivity|]; cbn; split;
     [ by rewrite lookup_insert_ne, lookup_insert_eq
     | rewrite lookup_insert_eq; f_equal; unfold index;
       rewrite lookup_insert_ne by done; apply Dashboard_params_action ]).
Qed.

(** *** Track *)

(** X22: A body that cannot be read, or that does not decode to a tracking
    event, makes the handler return that error: the tracker is not
    called and nothing is written. *)
Theorem Track_bad_body r a s err :
  (req_Body r = inl err
   \/ exists body, req_Body r = inr body /\ Unmarshal_TrackingEvent V body = inl err) ->
  vrun E (Track_Handle E V r a) s = (Done (Some err), mkVWorld E s []).
Proof.
  intros [Hbody|(body & Hbody & Hev)]; unfold vrun, Track_Handle;
    rewrite Hbody; [done|]. by rewrite Hev.
Qed.

(** X23: When the tracker refuses the event, or the event it leaves cannot be
    encoded, the handler returns that error after the one call of the
    tracker and writes nothing. *)
Theorem Track_failure_writes_nothing r a s body event err :
  let tracked := Track V event r a s in
  req_Body r = inr body ->
  Unmarshal_TrackingEvent V body = inr event ->
  (fst (fst tracked) = Some err
   \/ (fst (fst tracked) = None
       /\ Marshal_TrackingEvent V (snd (fst tracked)) = inl err)) ->
  vrun E (Track_Handle E V r a) s =
  (Done (Some err),
   mkVWorld E (snd tracked) [inr (CallTrack event (fst (fst tracked)))]).
Proof.
  intros tracked Hbody Hev H. subst tracked. unfold vrun, Track_Handle.
  rewrite Hbody, Hev. unfold_view.
  destruct H as [Herr|[Hok Herr]].
  - by rewrite Herr.
  - rewrite Hok. cbn. by rewrite Herr.
Qed.

(** X24: On success the handler answers with the encoding of the event as the
    tracker left it, not as it was decoded, after setting the content
    type; the tracker is called once, before anything is written. *)
Theorem Track_echoes_tracked_event r a s body event response :
  let tracked := Track V event r a s in
  req_Body r = inr body ->
  Unmarshal_TrackingEvent V body = inr event ->
  fst (fst tracked) = None ->
  Marshal_TrackingEvent V (snd (fst tracked)) = inr response ->
  vrun E (Track_Handle E V r a) s =
  (Done None,
   mkVWorld E (snd tracked)
     [ inr (CallTrack event None);
       inr (HeaderSet "Content-Type" "application/json");
       inr (BodyWrite response) ]).
Proof.
  intros tracked Hbody Hev Hok Hres. subst tracked. unfold vrun, Track_Handle.
  rewrite Hbody, Hev. unfold_view. rewrite Hok. cbn. by rewrite Hres.
Qed.

End ViewProperties.

(** * The further properties at work *)

Section MoreRuns.
Local Open Scope positive_scope.

(** The account of nobody@b.com cannot be resolved. *)
Lemma resolution_error_is_returned_witness :
  fst (AccountFromEmail DemoFaults.env "nobody@b.com" true Demo.state0)
  = inl (other_error "storage unavailable")
  /\ fst (run DemoFaults.env
            (Unsubscribe_Handle DemoFaults.env (Demo.post "tok_visa")
               (Some DemoFaults.nobody)) Demo.state0)
     = Done (Some (other_error "storage unavailable")).
Proof.
  assert (H : fst (AccountFromEmail DemoFaults.env "nobody@b.com" true Demo.state0)
              = inl (other_error "storage unavailable")) by (vm_compute; reflexivity).
  split; [exact H|].
  exact (f_equal fst
           (proj1 (resolution_error_is_returned DemoFaults.env (Demo.post "tok_visa")
                     DemoFaults.nobody Demo.state0 _ H))).
Defined.

(** The declined card: an error comes back and nothing was sent. *)
Lemma error_return_sends_no_response_witness :
  fst (run Demo.env
         (Subscribe_Handle Demo.env (Demo.post "tok_chargeDeclined") (Some Demo.alice))
         Demo.state0) = Done (Some (StripeError Demo.declined))
  /\ Forall (fun ev => is_response ev = false)
       (trace Demo.env
          (snd (run Demo.env
                  (Subscribe_Handle Demo.env (Demo.post "tok_chargeDeclined")
                     (Some Demo.alice)) Demo.state0))).
Proof.
  assert (H : fst (run Demo.env
                     (Subscribe_Handle Demo.env (Demo.post "tok_chargeDeclined")
                        (Some Demo.alice)) Demo.state0)
              = Done (Some (StripeError Demo.declined))) by (vm_compute; reflexivity).
  split; [exact H|].
  exact (proj1 (error_return_sends_no_response Demo.env _ _ _ _) H).
Defined.

(** a@b.com subscribes: the put is the fifth call. *)
Lemma Subscribe_put_after_provider_calls_witness :
  CallStoragePut 1 None
  ∈ trace Demo.env
      (snd (run Demo.env
              (Subscribe_Handle Demo.env (Demo.post "tok_visa") (Some Demo.alice))
              Demo.state0))
  /\ exists (tok : AuthToken) (sub s_ : loc) (id : string) (rest : list Event),
      Some Demo.alice = Some tok
      /\ trace Demo.env
           (snd (run Demo.env
                   (Subscribe_Handle Demo.env (Demo.post "tok_visa") (Some Demo.alice))
                   Demo.state0)) =
         ([ CallAccountFromEmail (pc_Email (tok_account tok)) true (inr 1);
            CallSetPaymentSource 1 (PostFormValue (Demo.post "tok_visa") "stripeToken")
              None;
            CallEnsureSubscription 1 (inr sub);
            CallSubUpdate id {| TrialEndNow := true |} (inr s_);
            CallStoragePut 1 None ] ++ rest)%list
      /\ Forall (fun ev => is_provider_call ev = false /\ is_store_put ev = false) rest.
Proof.
  assert (H : CallStoragePut 1 None
              ∈ trace Demo.env
                  (snd (run Demo.env
                          (Subscribe_Handle Demo.env (Demo.post "tok_visa")
                             (Some Demo.alice)) Demo.state0))).
  { vm_compute. do 4 apply list_elem_of_further. apply list_elem_of_here. }
  split; [exact H|].
  exact (Subscribe_put_after_provider_calls Demo.env _ _ _ _ _ H).
Defined.

(** a@b.com subscribes: the trialing subscription object is overwritten
    with the active one the provider answered with. *)
Lemma Subscribe_overwrites_subscription_witness :
  PostFormValue (Demo.post "tok_visa") "stripeToken" <> ""
  /\ sub_Status
       (read_sub
          (heap (state Demo.env
                   (snd (run Demo.env
                           (Subscribe_Handle Demo.env (Demo.post "tok_visa")
                              (Some Demo.alice)) Demo.state0)))) 1) = "active".
Proof.
  assert (Htok : PostFormValue (Demo.post "tok_visa") "stripeToken" <> "").
  { vm_compute. intros H. discriminate H. }
  split; [exact Htok|].
  pose proof (Subscribe_overwrites_subscription Demo.env (Demo.post "tok_visa")
                Demo.alice Demo.state0 1 1 2 Htok) as H.
  cbn zeta in H.
  destruct H as (_ & Hread & _); [vm_compute; reflexivity ..|].
  rewrite Hread. vm_compute. reflexivity.
Defined.

(** The storage refuses the put after a@b.com's subscription was updated. *)
Lemma Subscribe_put_failure_witness :
  PostFormValue (Demo.post "tok_visa") "stripeToken" <> ""
  /\ fst (run Demo.env
            (Subscribe_Handle Demo.env (Demo.post "tok_visa") (Some Demo.alice))
            DemoFaults.state_down) = Done (Some (other_error "storage unavailable")).
Proof.
  assert (Htok : PostFormValue (Demo.post "tok_visa") "stripeToken" <> "").
  { vm_compute. intros H. discriminate H. }
  split; [exact Htok|].
  pose proof (Subscribe_put_failure Demo.env (Demo.post "tok_visa")
                Demo.alice DemoFaults.state_down 1 1 2
                (other_error "storage unavailable") Htok) as H.
  cbn zeta in H.
  destruct H as (Hres & _); [vm_compute; reflexivity ..|].
  exact Hres.
Defined.

(** The provider answers the update with a subscription without a plan. *)
Lemma Subscribe_nil_Plan_panics_witness :
  PostFormValue (Demo.post "tok_visa") "stripeToken" <> ""
  /\ fst (run DemoFaults.env
            (Subscribe_Handle DemoFaults.env (Demo.post "tok_visa") (Some Demo.alice))
            Demo.state0) = Panic
  /\ CallStoragePut 1 None
     ∈ trace DemoFaults.env
         (snd (run DemoFaults.env
                 (Subscribe_Handle DemoFaults.env (Demo.post "tok_visa")
                    (Some Demo.alice)) Demo.state0)).
Proof.
  assert (Htok : PostFormValue (Demo.post "tok_visa") "stripeToken" <> "").
  { vm_compute. intros H. discriminate H. }
  split; [exact Htok|].
  pose proof (Subscribe_nil_Plan_panics DemoFaults.env (Demo.post "tok_visa")
                Demo.alice Demo.state0 1 1 2 Htok) as H.
  cbn zeta in H.
  destruct H as (Hres & Hput & _); [vm_compute; reflexivity ..|].
  split; [exact Hres|exact Hput].
Defined.

(** The provider refuses to cancel the subscription of a@b.com. *)
Lemma Unsubscribe_cancel_failure_witness :
  fst (AccountFromEmail Demo.env "a@b.com" true DemoFaults.state_unnamed) = inr 1
  /\ fst (run Demo.env (Unsubscribe_Handle Demo.env (Demo.post "") (Some Demo.alice))
            DemoFaults.state_unnamed) = Done (Some (stripe_Err Demo.unreachable)).
Proof.
  assert (Hacc : fst (AccountFromEmail Demo.env "a@b.com" true DemoFaults.state_unnamed)
                 = inr 1) by (vm_compute; reflexivity).
  split; [exact Hacc|].
  pose proof (Unsubscribe_cancel_failure Demo.env (Demo.post "") Demo.alice
                DemoFaults.state_unnamed 1 1 (stripe_Err Demo.unreachable) Hacc) as H.
  cbn zeta in H.
  rewrite H; [reflexivity | vm_compute; reflexivity ..].
Defined.

(** The storage refuses the put after the cancellation. *)
Lemma Unsubscribe_put_failure_witness :
  fst (AccountFromEmail Demo.env "a@b.com" true DemoFaults.state_down) = inr 1
  /\ fst (run Demo.env (Unsubscribe_Handle Demo.env (Demo.post "") (Some Demo.alice))
            DemoFaults.state_down) = Done (Some (other_error "storage unavailable")).
Proof.
  assert (Hacc : fst (AccountFromEmail Demo.env "a@b.com" true DemoFaults.state_down)
                 = inr 1) by (vm_compute; reflexivity).
  split; [exact Hacc|].
  pose proof (Unsubscribe_put_failure Demo.env (Demo.post "") Demo.alice
                DemoFaults.state_down 1 1 2 (other_error "storage unavailable")
                Hacc) as H.
  cbn zeta in H.
  rewrite H; [reflexivity | vm_compute; reflexivity ..].
Defined.

(** A body that is no event. *)
Lemma StripeHook_bad_body_witness :
  (req_Body (Demo.hook "garbage") = inl (other_error "invalid character")
   \/ exists body, req_Body (Demo.hook "garbage") = inr body
                   /\ Unmarshal_Event Demo.env body
                      = inl (other_error "invalid character"))
  /\ run Demo.env (StripeHook_Handle Demo.env (Demo.hook "garbage") None) Demo.state0
     = (Done (Some (other_error "invalid character")), mkWorld Demo.env Demo.state0 []).
Proof.
  assert (H : req_Body (Demo.hook "garbage") = inl (other_error "invalid character")
              \/ exists body, req_Body (Demo.hook "garbage") = inr body
                              /\ Unmarshal_Event Demo.env body
                                 = inl (other_error "invalid character")).
  { right. exists "garbage". split; reflexivity. }
  split; [exact H|].
  exact (StripeHook_bad_body Demo.env _ None Demo.state0 _ H).
Defined.

(** A customer.updated event without data. *)
Lemma StripeHook_nil_Data_panics_witness :
  Unmarshal_Event DemoFaults.env "customer.updated" = inr DemoFaults.no_data
  /\ (ev_Type DemoFaults.no_data ∈ recognized_types)
  /\ ev_Data DemoFaults.no_data = None
  /\ run DemoFaults.env
       (StripeHook_Handle DemoFaults.env (Demo.hook "customer.updated") None)
       Demo.state0 = (Panic, mkWorld DemoFaults.env Demo.state0 []).
Proof.
  assert (Hty : ev_Type DemoFaults.no_data ∈ recognized_types).
  { apply list_elem_of_further. apply list_elem_of_here. }
  split; [reflexivity|]. split; [exact Hty|]. split; [reflexivity|].
  exact (StripeHook_nil_Data_panics DemoFaults.env (Demo.hook "customer.updated") None
           Demo.state0 "customer.updated" DemoFaults.no_data
           eq_refl eq_refl Hty eq_refl).
Defined.

(** The provider does not know the customer of a subscription event. *)
Lemma StripeHook_customer_unavailable_witness :
  Unmarshal_Event Demo.env "customer.subscription.deleted cus_1"
  = inr (Demo.sub_deleted "cus_1")
  /\ ev_Data (Demo.sub_deleted "cus_1") = Some DemoFaults.sub_deleted_data
  /\ (ev_Type (Demo.sub_deleted "cus_1") ∈ subscription_types)
  /\ fst (run Demo.env
            (StripeHook_Handle Demo.env
               (Demo.hook "customer.subscription.deleted cus_1") None)
            DemoFaults.state_no_remote) = Done (Some (other_error "No such customer")).
Proof.
  assert (Hty : ev_Type (Demo.sub_deleted "cus_1") ∈ subscription_types).
  { do 2 apply list_elem_of_further. apply list_elem_of_here. }
  split; [reflexivity|]. split; [reflexivity|]. split; [exact Hty|].
  pose proof (proj2 (StripeHook_customer_unavailable Demo.env
                       (Demo.hook "customer.subscription.deleted cus_1") None
                       DemoFaults.state_no_remote
                       "customer.subscription.deleted cus_1"
                       (Demo.sub_deleted "cus_1") DemoFaults.sub_deleted_data
                       (other_error "No such customer")
                       eq_refl eq_refl eq_refl) Hty) as H.
  cbn zeta in H. rewrite H; [reflexivity | vm_compute; reflexivity].
Defined.

(** The customer of a subscription event is fetched first. *)
Lemma StripeHook_source_of_customer_witness :
  req_Body (Demo.hook "customer.subscription.deleted cus_1")
  = inr "customer.subscription.deleted cus_1"
  /\ Unmarshal_Event Demo.env "customer.subscription.deleted cus_1"
     = inr (Demo.sub_deleted "cus_1")
  /\ exists res rest,
      trace Demo.env
        (snd (run Demo.env
                (StripeHook_Handle Demo.env
                   (Demo.hook "customer.subscription.deleted cus_1") None)
                Demo.state0))
      = CallCustomerGet
          (default "" (data_Obj DemoFaults.sub_deleted_data !! "customer")) res :: rest
      /\ Forall (fun ev => is_customer_Get ev = false) rest.
Proof.
  assert (Hty : ev_Type (Demo.sub_deleted "cus_1") ∈ subscription_types).
  { do 2 apply list_elem_of_further. apply list_elem_of_here. }
  split; [reflexivity|]. split; [reflexivity|].
  exact (proj2 (StripeHook_source_of_customer Demo.env
                  (Demo.hook "customer.subscription.deleted cus_1") None Demo.state0
                  "customer.subscription.deleted cus_1" (Demo.sub_deleted "cus_1")
                  eq_refl eq_refl) Hty DemoFaults.sub_deleted_data eq_refl).
Defined.

(** customer.updated for cus_1 on the account that holds cus_1: the
    email stays, the provider's side stays. *)
Lemma StripeHook_frame_witness :
  hook_reaches_guard Demo.env (Demo.hook "customer.updated cus_1") Demo.state0
    (Demo.updated "cus_1") 2 1 (Demo.at_guard (Demo.updated "cus_1") Demo.state0)
  /\ acc_Customer (read_acc (heap (Demo.at_guard (Demo.updated "cus_1") Demo.state0)) 1)
     = Some 1
  /\ acc_Email
       (read_acc
          (heap (state Demo.env
                   (snd (run Demo.env
                           (StripeHook_Handle Demo.env
                              (Demo.hook "customer.updated cus_1") None)
                           Demo.state0)))) 1)
     = acc_Email (read_acc (heap (Demo.at_guard (Demo.updated "cus_1") Demo.state0)) 1).
Proof.
  assert (Hreach : hook_reaches_guard Demo.env (Demo.hook "customer.updated cus_1")
                     Demo.state0 (Demo.updated "cus_1") 2 1
                     (Demo.at_guard (Demo.updated "cus_1") Demo.state0)).
  { exists "customer.updated cus_1". repeat split; vm_compute; reflexivity. }
  assert (Hold : acc_Customer
                   (read_acc (heap (Demo.at_guard (Demo.updated "cus_1") Demo.state0)) 1)
                 = Some 1) by (vm_compute; reflexivity).
  split; [exact Hreach|]. split; [exact Hold|].
  exact (proj1 (StripeHook_frame Demo.env _ None _ _ _ _ _ _ Hreach Hold)).
Defined.

(** customer.updated for cus_1 when a@b.com is not stored: the account
    made for it has no customer. *)
Lemma StripeHook_nil_Customer_panics_witness :
  hook_reaches_guard Demo.env (Demo.hook "customer.updated cus_1") Demo.state_fresh
    (Demo.updated "cus_1") 2 1 (Demo.at_guard (Demo.updated "cus_1") Demo.state_fresh)
  /\ acc_Customer
       (read_acc (heap (Demo.at_guard (Demo.updated "cus_1") Demo.state_fresh)) 1)
     = None
  /\ fst (run Demo.env
            (StripeHook_Handle Demo.env (Demo.hook "customer.updated cus_1") None)
            Demo.state_fresh) = Panic.
Proof.
  assert (Hreach : hook_reaches_guard Demo.env (Demo.hook "customer.updated cus_1")
                     Demo.state_fresh (Demo.updated "cus_1") 2 1
                     (Demo.at_guard (Demo.updated "cus_1") Demo.state_fresh)).
  { exists "customer.updated cus_1". repeat split; vm_compute; reflexivity. }
  assert (Hnil : acc_Customer
                   (read_acc
                      (heap (Demo.at_guard (Demo.updated "cus_1") Demo.state_fresh)) 1)
                 = None) by (vm_compute; reflexivity).
  split; [exact Hreach|]. split; [exact Hnil|].
  exact (f_equal fst
           (StripeHook_nil_Customer_panics Demo.env _ None _ _ _ _ _ Hreach Hnil)).
Defined.

(** a@b.com is not stored yet: the account made for it has no customer
    and the subscription cannot be ensured. *)
Lemma Dashboard_stops_before_rendering_witness :
  fst (AccountFromEmail Demo.env "a@b.com" true Demo.state_fresh) = inr 1
  /\ fst (EnsureSubscription Demo.env 1
            (snd (AccountFromEmail Demo.env "a@b.com" true Demo.state_fresh)))
     = inl (other_error "no customer")
  /\ fst (vrun Demo.env
            (Dashboard_Handle Demo.env DemoView.env (DemoView.get ∅) (Some Demo.alice))
            Demo.state_fresh) = Done (Some (other_error "no customer")).
Proof.
  assert (Hacc : fst (AccountFromEmail Demo.env "a@b.com" true Demo.state_fresh)
                 = inr 1) by (vm_compute; reflexivity).
  assert (Hens : fst (EnsureSubscription Demo.env 1
                        (snd (AccountFromEmail Demo.env "a@b.com" true
                                Demo.state_fresh)))
                 = inl (other_error "no customer")) by (vm_compute; reflexivity).
  split; [exact Hacc|]. split; [exact Hens|].
  exact (f_equal fst
           (proj1 (proj2 (proj2
              (Dashboard_stops_before_rendering Demo.env DemoView.env (DemoView.get ∅)
                 Demo.alice Demo.state_fresh 1 (other_error "no customer"))))
              Hacc Hens)).
Defined.

(** The dashboard of a@b.com is rendered. *)
Lemma Dashboard_output_only_on_success_witness :
  fst (vrun Demo.env
         (Dashboard_Handle Demo.env DemoView.env
            (DemoView.get {[ "action" := "subscribed"; "tid" := "t9" ]})
            (Some Demo.alice)) Demo.state0) = Done None
  /\ exists (calls : list (Event + ViewEvent)) params b ev,
      vtrace Demo.env
        (snd (vrun Demo.env
                (Dashboard_Handle Demo.env DemoView.env
                   (DemoView.get {[ "action" := "subscribed"; "tid" := "t9" ]})
                   (Some Demo.alice)) Demo.state0))
      = (calls ++ [ inr (CallExecute params (inr b)); inr (BodyWrite b);
                    inr (GoTrackI ev) ])%list
      /\ Forall (fun ev => is_view_output ev = false) calls
      /\ ti_Name ev = "Open Dashboard"
      /\ ti_TrackingID ev
         = Query_Get (DemoView.get {[ "action" := "subscribed"; "tid" := "t9" ]}) "tid".
Proof.
  assert (H : fst (vrun Demo.env
                     (Dashboard_Handle Demo.env DemoView.env
                        (DemoView.get {[ "action" := "subscribed"; "tid" := "t9" ]})
                        (Some Demo.alice)) Demo.state0) = Done None)
    by (vm_compute; reflexivity).
  split; [exact H|].
  exact (proj2 (Dashboard_output_only_on_success Demo.env DemoView.env _ _ _) H).
Defined.


(** The dashboard after a subscription: no reference in the query, the
    action "subscribed" in the parameters. *)
Lemma Dashboard_reference_witness :
  exists params res,
    inr (CallExecute params res)
    ∈ vtrace Demo.env
        (snd (vrun Demo.env
                (Dashboard_Handle Demo.env DemoView.env
                   (DemoView.get {[ "action" := "subscribed" ]}) (Some Demo.alice))
                Demo.state0))
    /\ params !! "ref" = Some (VString "action: subscribed").
Proof.
  eexists _, _. split.
  - vm_compute. do 2 apply list_elem_of_further. apply list_elem_of_here.
  - refine (proj1 (proj2 (proj2
              (Dashboard_reference Demo.env DemoView.env
                 (DemoView.get {[ "action" := "subscribed" ]}) (Some Demo.alice)
                 Demo.state0 _ _ _))) _ "subscribed" _ _).
    + vm_compute. do 2 apply list_elem_of_further. apply list_elem_of_here.
    + vm_compute. reflexivity.
    + intros H. discriminate H.
    + vm_compute. reflexivity.
Defined.

(** A body that is no tracking event. *)
Lemma Track_bad_body_witness :
  (req_Body (Demo.hook "garbage") = inl (other_error "invalid character")
   \/ exists body, req_Body (Demo.hook "garbage") = inr body
                   /\ Unmarshal_TrackingEvent DemoView.env body
                      = inl (other_error "invalid character"))
  /\ vrun Demo.env (Track_Handle Demo.env DemoView.env (Demo.hook "garbage") None)
       Demo.state0
     = (Done (Some (other_error "invalid character")), mkVWorld Demo.env Demo.state0 []).
Proof.
  assert (H : req_Body (Demo.hook "garbage") = inl (other_error "invalid character")
              \/ exists body, req_Body (Demo.hook "garbage") = inr body
                              /\ Unmarshal_TrackingEvent DemoView.env body
                                 = inl (other_error "invalid character")).
  { right. exists "garbage". split; reflexivity. }
  split; [exact H|].
  exact (Track_bad_body Demo.env DemoView.env _ None Demo.state0 _ H).
Defined.

(** The tracker refuses an event without a name. *)
Lemma Track_failure_writes_nothing_witness :
  Unmarshal_TrackingEvent DemoView.env "no name"
  = inr {| ti_TrackingID := ""; ti_Name := ""; ti_Properties := ∅ |}
  /\ fst (vrun Demo.env (Track_Handle Demo.env DemoView.env (Demo.hook "no name") None)
            Demo.state0) = Done (Some (other_error "no event name")).
Proof.
  split; [reflexivity|].
  pose proof (Track_failure_writes_nothing Demo.env DemoView.env (Demo.hook "no name")
                None Demo.state0 "no name"
                {| ti_TrackingID := ""; ti_Name := ""; ti_Properties := ∅ |}
                (other_error "no event name") eq_refl eq_refl) as H.
  cbn zeta in H. rewrite H; [reflexivity|]. left. vm_compute. reflexivity.
Defined.

(** The tracker gives the event a tracking identifier, and the answer
    carries it. *)
Lemma Track_echoes_tracked_event_witness :
  Unmarshal_TrackingEvent DemoView.env "open app"
  = inr {| ti_TrackingID := ""; ti_Name := "Open App"; ti_Properties := ∅ |}
  /\ vtrace Demo.env
       (snd (vrun Demo.env
               (Track_Handle Demo.env DemoView.env (Demo.hook "open app") None)
               Demo.state0))
     = [ inr (CallTrack {| ti_TrackingID := ""; ti_Name := "Open App";
                           ti_Properties := ∅ |} None);
         inr (HeaderSet "Content-Type" "application/json");
         inr (BodyWrite "Open App tid_1") ].
Proof.
  split; [reflexivity|].
  pose proof (Track_echoes_tracked_event Demo.env DemoView.env (Demo.hook "open app")
                None Demo.state0 "open app"
                {| ti_TrackingID := ""; ti_Name := "Open App"; ti_Properties := ∅ |}
                "Open App tid_1" eq_refl eq_refl) as H.
  cbn zeta in H. rewrite H; [reflexivity | vm_compute; reflexivity ..].
Defined.

End MoreRuns.
